(** * mcp-ken: the GitMCP route, its fallback pipeline and the agent tools

    A shallow embedding of the API route of the GitMCP demo (the file the
    README calls [src/app/api/gitmcp/route.ts]: the request handler [POST],
    the cached Mastra components, the four fallback fetchers, the
    orchestrator, the prompt synthesizer and the simulated completion) and
    of two of the agent tools of [src/mastra/agents/githubAgent.ts].

    Strings are JavaScript strings restricted to the code units
    U+0000..U+00FF: a [string] of the Standard Library, one [ascii] per code
    unit.  Indices are [Z], as [indexOf] answers -1.  A JSON number is its
    decimal text.  A raised value is the text of its message.  [console.log],
    [console.error] and the one second [setTimeout] of the simulated
    completion are not modelled. *)

From Stdlib Require Import ZArith List Bool Ascii String DecimalString Lia.
Import ListNotations.
Open Scope string_scope.
Open Scope Z_scope.

(** ** JavaScript string primitives *)

Module JS.

Definition nl : string := String "010"%char "".
Definition dq : string := String "034"%char "".

Definition len (s : string) : Z := Z.of_nat (String.length s).

Fixpoint drop (n : nat) (s : string) : string :=
  match n, s with
  | O, _ => s
  | S _, EmptyString => EmptyString
  | S k, String _ t => drop k t
  end.

Fixpoint take (n : nat) (s : string) : string :=
  match n, s with
  | O, _ => EmptyString
  | S _, EmptyString => EmptyString
  | S k, String c t => String c (take k t)
  end.

(** [ToIntegerOrInfinity] followed by the clamp to [0, length]. *)
Definition clamp (s : string) (i : Z) : nat :=
  Z.to_nat (Z.min (Z.max i 0) (len s)).

(** [s.substring(a, b)]: both ends clamped, swapped when [a > b]. *)
Definition substring (s : string) (a b : Z) : string :=
  let a' := clamp s a in
  let b' := clamp s b in
  let lo := Nat.min a' b' in
  let hi := Nat.max a' b' in
  take (hi - lo) (drop lo s).

(** [s.substring(a)]. *)
Definition substring_from (s : string) (a : Z) : string :=
  substring s a (len s).

Fixpoint indexOf_aux (needle hay : string) (i : Z) : Z :=
  if String.prefix needle hay then i
  else match hay with
       | EmptyString => -1
       | String _ t => indexOf_aux needle t (i + 1)
       end.

(** [hay.indexOf(needle, from)]. *)
Definition indexOf (hay needle : string) (from : Z) : Z :=
  let k := clamp hay from in
  indexOf_aux needle (drop k hay) (Z.of_nat k).

(** [hay.includes(needle)]. *)
Definition includes (hay needle : string) : bool :=
  negb (indexOf hay needle 0 =? -1).

(** Character classes of the regular expressions, without the [u] and [i]
    flags: [\w], [\d] and (on U+0000..U+00FF) [\s]. *)
Definition code (c : ascii) : Z := Z.of_nat (nat_of_ascii c).

Definition is_digit (c : ascii) : bool :=
  (48 <=? code c) && (code c <=? 57).

Definition is_word (c : ascii) : bool :=
  ((65 <=? code c) && (code c <=? 90))
  || ((97 <=? code c) && (code c <=? 122))
  || is_digit c
  || (code c =? 95).

Definition is_space (c : ascii) : bool :=
  ((9 <=? code c) && (code c <=? 13)) || (code c =? 32) || (code c =? 160).

(** [toLowerCase] on U+0000..U+00FF: A-Z and the capitals U+00C0..U+00DE
    other than the multiplication sign U+00D7 move up by 32. *)
Definition lower_char (c : ascii) : ascii :=
  let n := code c in
  if ((65 <=? n) && (n <=? 90))
     || ((192 <=? n) && (n <=? 222) && negb (n =? 215))
  then ascii_of_nat (Z.to_nat (n + 32))
  else c.

Fixpoint toLowerCase (s : string) : string :=
  match s with
  | EmptyString => EmptyString
  | String c t => String (lower_char c) (toLowerCase t)
  end.

Fixpoint filter_chars (p : ascii -> bool) (s : string) : string :=
  match s with
  | EmptyString => EmptyString
  | String c t => if p c then String c (filter_chars p t) else filter_chars p t
  end.

Fixpoint drop_while (p : ascii -> bool) (s : string) : string :=
  match s with
  | EmptyString => EmptyString
  | String c t => if p c then drop_while p t else s
  end.

Fixpoint take_while (p : ascii -> bool) (s : string) : string :=
  match s with
  | EmptyString => EmptyString
  | String c t => if p c then String c (take_while p t) else EmptyString
  end.

Fixpoint rev_str (s : string) : string :=
  match s with
  | EmptyString => EmptyString
  | String c t => rev_str t ++ String c ""
  end.

(** [s.trim()]. *)
Definition trim (s : string) : string :=
  rev_str (drop_while is_space (rev_str (drop_while is_space s))).

(** [parts.join(sep)] on an array of strings. *)
Fixpoint join (sep : string) (parts : list string) : string :=
  match parts with
  | [] => ""
  | [p] => p
  | p :: rest => p ++ sep ++ join sep rest
  end.

(** [s.split(/\s+/)]: the pieces between the maximal runs of white space; a
    leading or trailing run leaves an empty piece, and the empty string
    splits into one empty piece.  [cur] is the piece being read, [insep]
    tells that the last code unit belonged to a separator. *)
Fixpoint split_ws_go (s cur : string) (insep : bool) : list string :=
  match s with
  | EmptyString => [cur]
  | String c t =>
      if is_space c
      then if insep then split_ws_go t "" true
           else cur :: split_ws_go t "" true
      else split_ws_go t (cur ++ String c "") false
  end.

Definition split_ws (s : string) : list string := split_ws_go s "" false.

End JS.

(** ** The prompt synthesizer *)

Record ToolResult := mkToolResult { name : string; content : string }.

Definition truncated_suffix : string := "... (truncated)".

(** The conditional of [formatToolResultsForLLM] that bounds one content. *)
Definition limit_content (c : string) : string :=
  if JS.len c >? 2000
  then JS.substring c 0 2000 ++ truncated_suffix
  else c.

Definition prompt_intro (query : string) : string :=
  "You are an AI assistant that answers questions about GitHub repositories. "
  ++ JS.nl ++ "User's question: " ++ JS.dq ++ query ++ JS.dq ++ JS.nl
  ++ JS.nl
  ++ "I've gathered the following information about the GitHub repository:"
  ++ JS.nl ++ JS.nl.

Definition prompt_closing : string :=
  "Based on the above information, please answer the user's question accurately. "
  ++ JS.nl
  ++ "Focus only on the information provided and what can be directly inferred from it."
  ++ JS.nl
  ++ "If you don't have enough information, acknowledge that limitation."
  ++ JS.nl
  ++ "Format your response in a clear, helpful way.".

(** The body of the [forEach] callback: the two [prompt +=]. *)
Definition add_result (prompt : string) (result : ToolResult) : string :=
  let prompt := prompt ++ "--- " ++ name result ++ " ---" ++ JS.nl in
  let content := limit_content (content result) in
  prompt ++ content ++ JS.nl ++ JS.nl.

Definition formatToolResultsForLLM (query : string)
    (toolResults : list ToolResult) : string :=
  let prompt := prompt_intro query in
  let prompt := fold_left add_result toolResults prompt in
  prompt ++ prompt_closing.

(** ** JSON values

    A number is held as the text that [Number.prototype.toString] gives for
    it (42, -0.5, 1e+21, and Infinity for a literal beyond the doubles); the
    zero of either sign is the text 0.  An object is held as its own
    properties, under distinct keys, in the order of their creation. *)

Set Warnings "-register-all".

Inductive json : Type :=
| JNull
| JBool (b : bool)
| JNum (text : string)
| JStr (s : string)
| JArr (items : list json)
| JObj (fields : list (string * json)).

Module Json.

(** [JSON.stringify] of a number: its text, and [null] for an infinity. *)
Definition number_text (text : string) : string :=
  if (text =? "Infinity")%string || (text =? "-Infinity")%string
  then "null"
  else text.

(** The array index that a key spells: a canonical decimal numeral up to
    2^32 - 2. *)
Fixpoint digits_value (s : string) (acc : N) : option N :=
  match s with
  | EmptyString => Some acc
  | String c t =>
      if JS.is_digit c
      then digits_value t (acc * 10 + Z.to_N (JS.code c - 48))%N
      else None
  end.

Definition array_index (k : string) : option N :=
  match k with
  | EmptyString => None
  | String c t =>
      if (JS.code c =? 48) && negb (t =? "")%string then None
      else match digits_value k 0%N with
           | Some n => if (n <=? 4294967294)%N then Some n else None
           | None => None
           end
  end.

Fixpoint insert_member (n : N) (member : string * string)
    (sorted : list (N * (string * string))) : list (N * (string * string)) :=
  match sorted with
  | [] => [(n, member)]
  | (m, other) :: rest =>
      if (n <? m)%N then (n, member) :: sorted
      else (m, other) :: insert_member n member rest
  end.

(** The order in which the own properties are enumerated: the keys that
    are array indices in ascending order, then the others in the order of
    their creation. *)
Definition enumerate (members : list (string * string))
    : list (string * string) :=
  (map snd
     (fold_right
        (fun member sorted =>
           match array_index (fst member) with
           | Some n => insert_member n member sorted
           | None => sorted
           end) [] members)
   ++ filter (fun member => match array_index (fst member) with
                            | Some _ => false
                            | None => true
                            end) members)%list.

Definition hex_digit (n : Z) : string :=
  JS.substring "0123456789abcdef" n (n + 1).

(** [QuoteJSONString]: the quote, the backslash and the controls are
    escaped, every other code unit is copied. *)
Definition escape_char (c : ascii) : string :=
  let n := JS.code c in
  if n =? 34 then "\" ++ JS.dq
  else if n =? 92 then "\\"
  else if n =? 8 then "\b"
  else if n =? 9 then "\t"
  else if n =? 10 then "\n"
  else if n =? 12 then "\f"
  else if n =? 13 then "\r"
  else if n <? 32 then "\u00" ++ hex_digit (n / 16) ++ hex_digit (n mod 16)
  else String c "".

Fixpoint escape (s : string) : string :=
  match s with
  | EmptyString => EmptyString
  | String c t => escape_char c ++ escape t
  end.

Definition quote (s : string) : string := JS.dq ++ escape s ++ JS.dq.

(** [JSON.stringify(v)] without indentation. *)
Fixpoint stringify (v : json) : string :=
  match v with
  | JNull => "null"
  | JBool true => "true"
  | JBool false => "false"
  | JNum text => number_text text
  | JStr s => quote s
  | JArr items => "[" ++ JS.join "," (map stringify items) ++ "]"
  | JObj fields =>
      "{" ++ JS.join ","
               (map (fun member => quote (fst member) ++ ":" ++ snd member)
                  (enumerate
                     (map (fun kv => let '(k, x) := kv in (k, stringify x))
                        fields)))
          ++ "}"
  end.

(** The conversion of a template literal, [`${v}`]. *)
Fixpoint toString (v : json) : string :=
  match v with
  | JNull => "null"
  | JBool true => "true"
  | JBool false => "false"
  | JNum text => text
  | JStr s => s
  | JArr items =>
      JS.join "," (map (fun x => match x with
                                 | JNull => ""
                                 | _ => toString x
                                 end) items)
  | JObj _ => "[object Object]"
  end.

(** A value read from a parsed body: [None] is [undefined]. *)
Definition value := option json.

Definition truthy (v : value) : bool :=
  match v with
  | None => false
  | Some JNull => false
  | Some (JBool b) => b
  | Some (JNum text) => negb (text =? "0")%string
  | Some (JStr s) => negb (s =? "")%string
  | Some (JArr _) => true
  | Some (JObj _) => true
  end.

Definition toString_value (v : value) : string :=
  match v with
  | None => "undefined"
  | Some x => toString x
  end.

Fixpoint lookup (k : string) (fields : list (string * json)) : value :=
  match fields with
  | [] => None
  | (k', x) :: rest => if (k =? k')%string then Some x else lookup k rest
  end.

(** [v.k] for a key that no string, number, boolean or array carries:
    [None] when [v] is [null] (the access raises a TypeError). *)
Definition get (v : json) (k : string) : option value :=
  match v with
  | JNull => None
  | JObj fields => Some (lookup k fields)
  | _ => Some None
  end.

End Json.

(** ** [atob]: the forgiving base64 decoder *)

Module Base64.

Definition is_ascii_ws (c : ascii) : bool :=
  let n := JS.code c in
  (n =? 9) || (n =? 10) || (n =? 12) || (n =? 13) || (n =? 32).

Definition sextet (c : ascii) : option Z :=
  let n := JS.code c in
  if (65 <=? n) && (n <=? 90) then Some (n - 65)
  else if (97 <=? n) && (n <=? 122) then Some (n - 71)
  else if (48 <=? n) && (n <=? 57) then Some (n + 4)
  else if n =? 43 then Some 62
  else if n =? 47 then Some 63
  else None.

Fixpoint sextets (s : string) : option (list Z) :=
  match s with
  | EmptyString => Some []
  | String c t =>
      match sextet c, sextets t with
      | Some x, Some xs => Some (x :: xs)
      | _, _ => None
      end
  end.

Definition byte (n : Z) : ascii := ascii_of_nat (Z.to_nat (n mod 256)).

(** Groups of four sextets give three bytes; two left over give one byte and
    three give two, the low bits being dropped. *)
Fixpoint decode_groups (xs : list Z) : string :=
  match xs with
  | a :: b :: c :: d :: rest =>
      let n := Z.lor (Z.shiftl a 18)
                 (Z.lor (Z.shiftl b 12) (Z.lor (Z.shiftl c 6) d)) in
      String (byte (Z.shiftr n 16))
        (String (byte (Z.shiftr n 8)) (String (byte n) (decode_groups rest)))
  | [a; b; c] =>
      let n := Z.lor (Z.shiftl a 12) (Z.lor (Z.shiftl b 6) c) in
      String (byte (Z.shiftr n 10)) (String (byte (Z.shiftr n 2)) "")
  | [a; b] =>
      let n := Z.lor (Z.shiftl a 6) b in
      String (byte (Z.shiftr n 4)) ""
  | _ => ""
  end.

Definition strip_padding (s : string) : string :=
  if (JS.len s) mod 4 =? 0 then
    let n := JS.len s in
    if String.prefix "==" (JS.substring_from s (n - 2)) then JS.substring s 0 (n - 2)
    else if String.prefix "=" (JS.substring_from s (n - 1)) then JS.substring s 0 (n - 1)
    else s
  else s.

(** [atob(s)]: [None] when it raises InvalidCharacterError. *)
Definition atob (s : string) : option string :=
  let s := JS.filter_chars (fun c => negb (is_ascii_ws c)) s in
  let s := strip_padding s in
  if (JS.len s) mod 4 =? 1 then None
  else match sextets s with
       | Some xs => Some (decode_groups xs)
       | None => None
       end.

End Base64.

(** ** Effects: the network, the agent and the cached Mastra components

    A handler runs in a state that holds the module variable [mastraPromise]
    and the trace of the calls made to the outside so far.  What the outside
    answers is an [Env]; each answer may depend on the trace. *)

(** A [RuntimeContext<GitHubRepositoryContext>]: its two keys.  The route
    stores the unvalidated [owner] and [repo] of the body in it. *)
Record RuntimeContext := mkContext {
  repository_owner : json;
  repository_name : json }.

Definition Agent := nat.

Record MastraComponents := mkComponents {
  githubAgent : Agent;
  runtimeContext : RuntimeContext }.

(** The promise held by [mastraPromise]; a rejected one is removed by its
    own [catch] callback. *)
Inductive Promise :=
| Pending
| Fulfilled (c : MastraComponents).

Inductive Event :=
| EFetch (url : string)
| EInitializeMastra
| EGenerate (agent : Agent) (query : string) (ctx : RuntimeContext).

Record HttpResponse := mkHttp { status : Z; body : option json }.

Inductive FetchOutcome :=
| NetworkError
| Response (r : HttpResponse).

Record Env := mkEnv {
  fetch_reply : list Event -> string -> FetchOutcome;
  initialize_reply : list Event -> option Agent;
  generate_reply :
    list Event -> Agent -> string -> RuntimeContext -> option string }.

Record State := mkState {
  mastraPromise : option Promise;
  trace : list Event }.

Inductive Result (A : Type) :=
| Ok (a : A)
| Thrown (e : string).
Arguments Ok {A} a.
Arguments Thrown {A} e.

Definition M (A : Type) := State -> Result A * State.

Definition ret {A} (a : A) : M A := fun st => (Ok a, st).

Definition throw {A} (e : string) : M A := fun st => (Thrown e, st).

Definition bind {A B} (m : M A) (k : A -> M B) : M B :=
  fun st => match m st with
            | (Ok a, st') => k a st'
            | (Thrown e, st') => (Thrown e, st')
            end.

Definition try_catch {A} (m : M A) (handler : string -> M A) : M A :=
  fun st => match m st with
            | (Ok a, st') => (Ok a, st')
            | (Thrown e, st') => handler e st'
            end.

Notation "x <- m ;; k" := (bind m (fun x => k))
  (at level 61, m at next level, right associativity).

Definition emit (e : Event) : M unit :=
  fun st => (Ok tt, mkState (mastraPromise st) (trace st ++ [e])).

(** [`${response.status}`]: a status is an integer from 0 to 65535 (an
    unsigned short), printed with all its digits. *)
Definition status_text (n : Z) : string :=
  NilZero.string_of_int (Z.to_int n).

Definition ok (r : HttpResponse) : bool :=
  (200 <=? status r) && (status r <=? 299).

Definition default_context : RuntimeContext :=
  mkContext (JStr "eddycjy") (JStr "go-gin-example").

Definition default_repository : string := "eddycjy/go-gin-example".

(** [NextResponse.json(payload, { status })]. *)
Record NextResponse := mkNext { http_status : Z; payload : json }.

Section WithEnv.

Variable env : Env.

(** [await fetch(url)]. *)
Definition fetch (url : string) : M HttpResponse :=
  fun st =>
    let st' := mkState (mastraPromise st) (trace st ++ [EFetch url]) in
    match fetch_reply env (trace st) url with
    | NetworkError => (Thrown "TypeError: fetch failed", st')
    | Response r => (Ok r, st')
    end.

(** [await response.json()]. *)
Definition response_json (r : HttpResponse) : M json :=
  match body r with
  | Some v => ret v
  | None => throw "SyntaxError: Unexpected token in JSON"
  end.

Definition github_error (r : HttpResponse) : string :=
  "GitHub API error: " ++ status_text (status r).

End WithEnv.

(** ** The simulated completion: the regular expressions and the extraction *)

Module Regex.

Definition not_quote (c : ascii) : bool := negb (JS.code c =? 34).

(** A quote, group 1 of one or more code units other than the quote, and a
    quote, tried at the start of [s]; the answer is group 1.  The class
    stops at the first quote, so the greedy match is the only one. *)
Definition quoted (s : string) : option string :=
  match s with
  | String c r =>
      if JS.code c =? 34 then
        match JS.take_while not_quote r, JS.drop_while not_quote r with
        | String c1 cap, String _ _ => Some (String c1 cap)
        | _, _ => None
        end
      else None
  | EmptyString => None
  end.

(** The pattern [key], [\s*] and the quoted group, tried at the start of
    [s]: the patterns of [full_name] and [description]. *)
Definition quoted_at (key : string) (s : string) : option string :=
  if String.prefix key s
  then quoted (JS.drop_while JS.is_space (JS.drop (String.length key) s))
  else None.

(** The pattern of the question: the words and the quoted group, with
    nothing in between. *)
Definition question_at (s : string) : option string :=
  if String.prefix "User's question: " s
  then quoted (JS.drop (String.length "User's question: ") s)
  else None.

(** The pattern [key\s*(\d+)] tried at the start of [s]. *)
Definition digits_at (key : string) (s : string) : option string :=
  if String.prefix key s then
    match JS.take_while JS.is_digit
            (JS.drop_while JS.is_space (JS.drop (String.length key) s)) with
    | String c cap => Some (String c cap)
    | EmptyString => None
    end
  else None.

(** [s.match(re)] without the [g] flag: the match at the least index. *)
Fixpoint search (at_start : string -> option string) (s : string)
    : option string :=
  match at_start s with
  | Some cap => Some cap
  | None => match s with
            | EmptyString => None
            | String _ t => search at_start t
            end
  end.

Definition full_name_key : string := JS.dq ++ "full_name" ++ JS.dq ++ ":".
Definition stargazers_key : string :=
  JS.dq ++ "stargazers_count" ++ JS.dq ++ ":".
Definition description_key : string := JS.dq ++ "description" ++ JS.dq ++ ":".

End Regex.

(** The README text held between the readme marker and the next [---]. *)
Definition readmeSection_of (prompt : string) : string :=
  if JS.includes prompt "fetch_repository_readme" then
    let readmeStart :=
      JS.indexOf prompt "fetch_repository_readme" 0
      + JS.len "fetch_repository_readme" + 4 in
    let readmeEnd := JS.indexOf prompt "---" readmeStart in
    if readmeEnd >? readmeStart
    then JS.trim (JS.substring prompt readmeStart readmeEnd)
    else ""
  else "".

(** From [start] to the next [##] looked for from [from], or to the end of
    [readmeSection]. *)
Definition section_from (readmeSection : string) (start from : Z) : string :=
  let nextSectionStart := JS.indexOf readmeSection "##" from in
  if nextSectionStart >? -1
  then JS.substring readmeSection start nextSectionStart
  else JS.substring_from readmeSection start.

(** The three branches of [simulateLLMCall], each on its own. *)
Definition installation_content (readmeSection : string) : string :=
  let relevantContent := "" in
  let installationStart := JS.indexOf readmeSection "## Installation" 0 in
  let relevantContent :=
    if installationStart >? -1
    then section_from readmeSection installationStart (installationStart + 3)
    else relevantContent in
  let runStart := JS.indexOf readmeSection "## How to run" 0 in
  if runStart >? -1
  then relevantContent ++ (JS.nl ++ JS.nl)
         ++ section_from readmeSection runStart (runStart + 3)
  else relevantContent.

Definition features_content (readmeSection : string) : string :=
  let featuresStart := JS.indexOf readmeSection "## Features" 0 in
  if featuresStart >? -1
  then section_from readmeSection featuresStart (featuresStart + 3)
  else "".

Definition api_content (readmeSection : string) : string :=
  let apiStart := JS.indexOf readmeSection "API" 0 in
  if apiStart >? -1 then
    let nextSectionStart := JS.indexOf readmeSection "##" apiStart in
    if nextSectionStart >? -1
    then JS.substring readmeSection apiStart nextSectionStart
    else JS.substring readmeSection apiStart (apiStart + 500)
  else "".

(** The [if] / [else if] chain on the lower-cased question. *)
Definition relevantContent_of (query readmeSection : string) : string :=
  if JS.includes query "run" || JS.includes query "install"
     || JS.includes query "setup"
  then installation_content readmeSection
  else if JS.includes query "feature" || JS.includes query "what"
          || JS.includes query "capabilities"
  then features_content readmeSection
  else if JS.includes query "api" || JS.includes query "endpoint"
  then api_content readmeSection
  else "".

Definition found_response (repoName relevantContent stars description : string)
    : string :=
  "Based on the GitHub repository " ++ repoName
  ++ ", I found this information:" ++ JS.nl ++ JS.nl ++ relevantContent
  ++ JS.nl ++ JS.nl ++ "This repository has " ++ stars
  ++ " stars and is described as: " ++ JS.dq ++ description ++ JS.dq ++ ".".

Definition generic_response (repoName description stars : string) : string :=
  "The repository " ++ repoName ++ " is a " ++ description ++ ". It has "
  ++ stars ++ " stars on GitHub." ++ JS.nl ++ JS.nl
  ++ "From analyzing the repository's structure and README, it appears to be a framework for building web applications using the Gin framework in Go. It demonstrates patterns for REST APIs, authentication, and database operations."
  ++ JS.nl ++ JS.nl
  ++ "For more specific information, please ask about particular aspects like installation, features, or API endpoints.".

Definition or_default (m : option string) (d : string) : string :=
  match m with
  | Some x => x
  | None => d
  end.

Definition question_of (prompt : string) : string :=
  match Regex.search Regex.question_at prompt with
  | Some q => JS.toLowerCase q
  | None => ""
  end.

Definition simulateLLMCall (prompt : string) : string :=
  let metadataMatch :=
    Regex.search (Regex.quoted_at Regex.full_name_key) prompt in
  let repoName := or_default metadataMatch "eddycjy/go-gin-example" in
  let starsMatch :=
    Regex.search (Regex.digits_at Regex.stargazers_key) prompt in
  let stars := or_default starsMatch "many" in
  let descriptionMatch :=
    Regex.search (Regex.quoted_at Regex.description_key) prompt in
  let description :=
    or_default descriptionMatch "a Go Gin example with useful features" in
  let query := question_of prompt in
  let readmeSection := readmeSection_of prompt in
  let relevantContent := relevantContent_of query readmeSection in
  if negb (relevantContent =? "")%string
  then found_response repoName relevantContent stars description
  else generic_response repoName description stars.

(** ** The search string of [searchRepositoryContents] *)

Definition searchTerms_of (query : string) : list string :=
  firstn 3
    (filter (fun term => JS.len term >? 3)
       (JS.split_ws
          (JS.filter_chars (fun c => JS.is_word c || JS.is_space c)
             (JS.toLowerCase query)))).

Definition searchQuery_of (query : string) : string :=
  let searchTerms := searchTerms_of query in
  if Z.of_nat (List.length searchTerms) >? 0
  then JS.join "+" searchTerms
  else "api+endpoint+feature".

(** ** The route: fetchers, orchestrator and request handler *)

Module Route.

Section WithEnv.

Variable env : Env.

Definition fetchRepositoryMetadata (repo : string) : M json :=
  try_catch
    (response <- fetch env ("https://api.github.com/repos/" ++ repo) ;;
     if negb (ok response) then throw (github_error response)
     else response_json response)
    (fun error => throw error).

Definition fetchRepositoryReadme (repo : string) : M string :=
  try_catch
    (response <-
       fetch env ("https://api.github.com/repos/" ++ repo ++ "/readme") ;;
     if negb (ok response) then throw (github_error response)
     else
       data <- response_json response ;;
       match Json.get data "content" with
       | None => throw "TypeError: cannot read properties of null"
       | Some c =>
           if Json.truthy c then
             match c with
             | Some (JStr s) =>
                 match Base64.atob
                         (JS.filter_chars
                            (fun ch => negb (JS.code ch =? 10)) s) with
                 | Some text => ret text
                 | None => throw "InvalidCharacterError"
                 end
             | _ => throw "TypeError: data.content.replace is not a function"
             end
           else ret "README content not available"
       end)
    (fun _ => ret "Could not fetch README content due to an error").

Definition searchRepositoryContents (repo query : string) : M json :=
  try_catch
    (let searchQuery := searchQuery_of query in
     let searchUrl :=
       "https://api.github.com/search/code?q=" ++ searchQuery ++ "+repo:"
       ++ repo in
     response <- fetch env searchUrl ;;
     if negb (ok response) then
       fallbackResponse <-
         fetch env ("https://api.github.com/repos/" ++ repo ++ "/contents") ;;
       if negb (ok fallbackResponse) then ret (JArr [])
       else response_json fallbackResponse
     else
       data <- response_json response ;;
       match Json.get data "items" with
       | None => throw "TypeError: cannot read properties of null"
       | Some items =>
           ret (match items with
                | Some v => if Json.truthy items then v else JArr []
                | None => JArr []
                end)
       end)
    (fun _ => ret (JArr [])).

Definition fetchRepositoryStructure (repo : string) : M json :=
  try_catch
    (response <-
       fetch env ("https://api.github.com/repos/" ++ repo ++ "/contents") ;;
     if negb (ok response) then throw (github_error response)
     else response_json response)
    (fun _ => ret (JArr [])).

Definition executeGitHubTools (repo query : string) : M (list ToolResult) :=
  let results : list ToolResult := [] in
  try_catch
    (repoMetadata <- fetchRepositoryMetadata repo ;;
     let results :=
       (results ++ [mkToolResult "fetch_repository_metadata"
                      (Json.stringify repoMetadata)])%list in
     readmeContent <- fetchRepositoryReadme repo ;;
     let results :=
       (results
        ++ [mkToolResult "fetch_repository_readme" readmeContent])%list in
     searchResults <- searchRepositoryContents repo query ;;
     let results :=
       (results ++ [mkToolResult "search_repository_contents"
                      (Json.stringify searchResults)])%list in
     repoStructure <- fetchRepositoryStructure repo ;;
     let results :=
       (results ++ [mkToolResult "fetch_repository_structure"
                      (Json.stringify repoStructure)])%list in
     ret results)
    (fun error => throw error).

Definition generateLLMResponse (query : string)
    (toolResults : list ToolResult) : M string :=
  try_catch
    (let prompt := formatToolResultsForLLM query toolResults in
     try_catch (ret (simulateLLMCall prompt))
       (fun _ => ret (simulateLLMCall prompt)))
    (fun _ =>
       ret "I encountered an error while processing the repository information. Please try again later.").

Definition fallbackProcessing (query : string) (owner repo : Json.value)
    : M NextResponse :=
  try_catch
    (let repoIdentifier :=
       if Json.truthy owner && Json.truthy repo
       then Json.toString_value owner ++ "/" ++ Json.toString_value repo
       else default_repository in
     toolResults <- executeGitHubTools repoIdentifier query ;;
     llmResponse <- generateLLMResponse query toolResults ;;
     ret (mkNext 200 (JObj [("response", JStr llmResponse)])))
    (fun _ =>
       ret (mkNext 500
              (JObj [("error",
                      JStr "Failed to process request in fallback mode")]))).

(** *** The cached components *)

Definition get_promise : M (option Promise) :=
  fun st => (Ok (mastraPromise st), st).

Definition set_promise (p : option Promise) : M unit :=
  fun st => (Ok tt, mkState p (trace st)).

(** The body of [if (!mastraPromise)]: [initializeMastra()] is called and
    the promise it starts is stored, not yet settled. *)
Definition start_initialization : M unit :=
  _ <- emit EInitializeMastra ;;
  set_promise (Some Pending).

(** The stored promise settles.  [initializeMastra] answers the agent of
    [createGitHubAgent] with a fresh default context, or raises; the [then]
    callback keeps the two components, the [catch] callback sets
    [mastraPromise] to [null] and raises again. *)
Definition settle : M MastraComponents :=
  fun st =>
    match initialize_reply env (trace st) with
    | Some a =>
        let c := mkComponents a default_context in
        (Ok c, mkState (Some (Fulfilled c)) (trace st))
    | None =>
        (Thrown "Error: initializeMastra failed", mkState None (trace st))
    end.

(** [await] of the promise that [getMastraComponents] returned. *)
Definition await_promise : M MastraComponents :=
  p <- get_promise ;;
  match p with
  | Some (Fulfilled c) => ret c
  | Some Pending => settle
  | None => throw "Error: initializeMastra failed"
  end.

Definition getMastraComponents : M MastraComponents :=
  p <- get_promise ;;
  _ <- match p with
       | None => start_initialization
       | Some _ => ret tt
       end ;;
  await_promise.

(** [runtimeContext.set] on the two keys: the context is the object held by
    the cached components, so the writes are seen by every later reader. *)
Definition set_repository (owner repo : json) : M unit :=
  fun st =>
    match mastraPromise st with
    | Some (Fulfilled c) =>
        (Ok tt,
         mkState (Some (Fulfilled (mkComponents (githubAgent c)
                                     (mkContext owner repo))))
           (trace st))
    | _ => (Ok tt, st)
    end.

(** The present content of the shared context object of [c]. *)
Definition read_context (c : MastraComponents) : M RuntimeContext :=
  fun st =>
    match mastraPromise st with
    | Some (Fulfilled c') => (Ok (runtimeContext c'), st)
    | _ => (Ok (runtimeContext c), st)
    end.

(** [await githubAgent.generate(...)], then [agentResponse.text]. *)
Definition generate (c : MastraComponents) (query : string) : M string :=
  ctx <- read_context c ;;
  fun st =>
    let st' :=
      mkState (mastraPromise st)
        (trace st ++ [EGenerate (githubAgent c) query ctx]) in
    match generate_reply env (trace st) (githubAgent c) query ctx with
    | Some text => (Ok text, st')
    | None => (Thrown "Error: generate failed", st')
    end.

Definition is_string (v : Json.value) : bool :=
  match v with
  | Some (JStr _) => true
  | _ => false
  end.

Definition invalid_query : NextResponse :=
  mkNext 400 (JObj [("error", JStr "Invalid query parameter")]).

Definition failed_request : NextResponse :=
  mkNext 500 (JObj [("error", JStr "Failed to process request")]).

(** [POST(request)]; [request_body] is what [request.json()] parses, [None]
    when it raises.  Destructuring [null] raises a TypeError.
    [fallbackProcessing] catches whatever it raises, so returning its
    promise from inside a [try] is the same as awaiting it there. *)
Definition POST (request_body : option json) : M NextResponse :=
  try_catch
    (parsed <- match request_body with
               | Some v => ret v
               | None => throw "SyntaxError: Unexpected end of JSON input"
               end ;;
     match Json.get parsed "query", Json.get parsed "owner",
           Json.get parsed "repo" with
     | Some query, Some owner, Some repo =>
         if negb (Json.truthy query) || negb (is_string query)
         then ret invalid_query
         else
           let query := Json.toString_value query in
           try_catch
             (c <- getMastraComponents ;;
              _ <- match owner, repo with
                   | Some o, Some r =>
                       if Json.truthy owner && Json.truthy repo
                       then set_repository o r
                       else ret tt
                   | _, _ => ret tt
                   end ;;
              try_catch
                (ollamaTest <- fetch env "http://localhost:11434/api/version" ;;
                 if negb (ok ollamaTest)
                 then fallbackProcessing query owner repo
                 else
                   text <- generate c query ;;
                   ret (mkNext 200 (JObj [("response", JStr text)])))
                (fun _ => fallbackProcessing query owner repo))
             (fun _ => fallbackProcessing query owner repo)
     | _, _, _ => throw "TypeError: cannot destructure null"
     end)
    (fun _ => ret failed_request).

End WithEnv.

End Route.

(** ** The agent tools of [githubAgent.ts] *)

Module AgentTools.

(** The validated input of a tool: both fields are optional strings. *)
Record ToolContext := mkToolContext {
  ctx_owner : option string;
  ctx_repo : option string }.

(** [context.k || runtimeContext.get(...)]. *)
Definition or_context (given : option string) (remembered : json) : json :=
  match given with
  | Some s => if (s =? "")%string then remembered else JStr s
  | None => remembered
  end.

Definition repository (context : ToolContext) (rc : RuntimeContext)
    : string :=
  Json.toString (or_context (ctx_owner context) (repository_owner rc))
  ++ "/" ++ Json.toString (or_context (ctx_repo context) (repository_name rc)).

Definition fallback_note : string :=
  "Fallback to repository contents due to search API limitations".

Section WithEnv.

Variable env : Env.

Definition fetchRepositoryMetadata (context : ToolContext)
    (rc : RuntimeContext) : M json :=
  try_catch
    (response <-
       fetch env ("https://api.github.com/repos/" ++ repository context rc) ;;
     if negb (ok response) then throw (github_error response)
     else response_json response)
    (fun _ =>
       ret (JObj [("error", JStr "Failed to fetch repository metadata")])).

Definition searchRepositoryContents (context : ToolContext) (query : string)
    (rc : RuntimeContext) : M json :=
  try_catch
    (let searchQuery := searchQuery_of query in
     let searchUrl :=
       "https://api.github.com/search/code?q=" ++ searchQuery ++ "+repo:"
       ++ repository context rc in
     response <- fetch env searchUrl ;;
     if negb (ok response) then
       fallbackResponse <-
         fetch env ("https://api.github.com/repos/" ++ repository context rc
                    ++ "/contents") ;;
       if negb (ok fallbackResponse) then ret (JObj [("items", JArr [])])
       else
         items <- response_json fallbackResponse ;;
         ret (JObj [("items", items); ("note", JStr fallback_note)])
     else
       data <- response_json response ;;
       match Json.get data "items" with
       | None => throw "TypeError: cannot read properties of null"
       | Some items =>
           ret (JObj [("items",
                       match items with
                       | Some v => if Json.truthy items then v else JArr []
                       | None => JArr []
                       end)])
       end)
    (fun _ =>
       ret (JObj [("items", JArr []);
                  ("error", JStr "Failed to search repository contents")])).

(** The object literal of a successful answer: a key whose value is
    [undefined] is left out, as [JSON.stringify] leaves it out. *)
Definition field (k : string) (v : Json.value) : list (string * json) :=
  match v with
  | Some x => [(k, x)]
  | None => []
  end.

(** [data.k] where [data] is known not to be [null]. *)
Definition prop (data : json) (k : string) : Json.value :=
  match Json.get data k with
  | Some v => v
  | None => None
  end.

(** The part shared by the two tools that decode a file: [data.content] is
    tested, stripped of its line feeds and decoded; [extra] lists the
    other keys copied from [data]; [missing] is the text of the error when
    there is no content. *)
Definition decoded_file (data : json) (extra : list string)
    (missing : string) : M json :=
  match Json.get data "content" with
  | None => throw "TypeError: cannot read properties of null"
  | Some c =>
      if Json.truthy c then
        match c with
        | Some (JStr s) =>
            match Base64.atob
                    (JS.filter_chars (fun ch => negb (JS.code ch =? 10)) s)
            with
            | Some text =>
                ret (JObj (("content", JStr text)
                           :: flat_map (fun k => field k (prop data k)) extra))
            | None => throw "InvalidCharacterError"
            end
        | _ => throw "TypeError: data.content.replace is not a function"
        end
      else ret (JObj [("error", JStr missing)])
  end.

Definition fetchRepositoryReadme (context : ToolContext)
    (rc : RuntimeContext) : M json :=
  try_catch
    (response <-
       fetch env ("https://api.github.com/repos/" ++ repository context rc
                  ++ "/readme") ;;
     if negb (ok response) then throw (github_error response)
     else
       data <- response_json response ;;
       decoded_file data ["name"; "path"] "README content not available")
    (fun _ => ret (JObj [("error", JStr "Failed to fetch README content")])).

Definition fetchFileContent (context : ToolContext) (path : string)
    (rc : RuntimeContext) : M json :=
  try_catch
    (response <-
       fetch env ("https://api.github.com/repos/" ++ repository context rc
                  ++ "/contents/" ++ path) ;;
     if negb (ok response) then throw (github_error response)
     else
       data <- response_json response ;;
       decoded_file data ["name"; "path"; "type"; "size"]
         "File content not available")
    (fun _ => ret (JObj [("error", JStr "Failed to fetch file content")])).

End WithEnv.

End AgentTools.

(** ** The model check of the agent file *)

Module AgentFile.

Definition PREFERRED_MODEL : string := "llama3.1-resume:custom".
Definition FALLBACK_MODEL : string := "llama3".

(** [m.name === modelName]. *)
Definition named (modelName : string) (v : Json.value) : bool :=
  match v with
  | Some (JStr s) => (s =? modelName)%string
  | _ => false
  end.

(** [models.some((m) => m.name === modelName)] on the elements of an
    array: [None] when reading [m.name] raises, which happens at a [null]
    met before any match. *)
Fixpoint some_named (modelName : string) (models : list json)
    : option bool :=
  match models with
  | [] => Some false
  | m :: rest =>
      match Json.get m "name" with
      | None => None
      | Some v =>
          if named modelName v then Some true
          else some_named modelName rest
      end
  end.

(** [data.models || []], then [.some(...)]: only an array has [some]. *)
Definition model_listed (modelName : string) (data : json) : M bool :=
  match Json.get data "models" with
  | None => throw "TypeError: cannot read properties of null"
  | Some models =>
      match (if Json.truthy models then models else Some (JArr [])) with
      | Some (JArr items) =>
          match some_named modelName items with
          | Some b => ret b
          | None => throw "TypeError: cannot read properties of null"
          end
      | _ => throw "TypeError: models.some is not a function"
      end
  end.

Definition ollama_tags : string := "http://localhost:11434/api/tags".

Section WithEnv.

Variable env : Env.

Definition getOllamaModel (modelName : string) : M string :=
  try_catch
    (response <- fetch env ollama_tags ;;
     if negb (ok response) then ret modelName
     else
       data <- response_json response ;;
       modelExists <- model_listed modelName data ;;
       if negb modelExists then ret FALLBACK_MODEL else ret modelName)
    (fun _ => ret modelName).

End WithEnv.

End AgentFile.

(** ** The page: recent repositories, the request it sends, the status it
    shows *)

Module Page.

Record Repo := mkRepo { owner : string; repo : string }.

(** [r.owner === owner && r.repo === repo]. *)
Definition same (owner' repo' : string) (r : Repo) : bool :=
  (owner r =? owner')%string && (repo r =? repo')%string.

(** [updateRecentRepos(owner, repo)]: the list handed both to
    [setRecentRepos] and, serialized, to [localStorage]. *)
Definition updateRecentRepos (recentRepos : list Repo) (owner' repo' : string)
    : list Repo :=
  let repoExists := existsb (same owner' repo') recentRepos in
  if negb repoExists then
    let newRecentRepos := mkRepo owner' repo' :: recentRepos in
    let updatedRepos := firstn 5 newRecentRepos in
    updatedRepos
  else
    let filteredRepos :=
      filter (fun r => negb (same owner' repo' r)) recentRepos in
    let newRecentRepos := mkRepo owner' repo' :: filteredRepos in
    newRecentRepos.

(** The test of [handleSubmit] for the canned weather answer. *)
Definition asks_weather_agent (query : string) : bool :=
  JS.includes (JS.toLowerCase query) "weather agent"
  || JS.includes (JS.toLowerCase query) "mastra weather"
  || JS.includes (JS.toLowerCase query) "weather with mastra"
  || JS.includes (JS.toLowerCase query) "show me a simple mastra weather".

(** What [handleSubmit] does with the form: nothing for a blank query, the
    canned weather answer, or a POST to the route with this body. *)
Inductive Submission :=
| Ignored
| WeatherAnswer
| Request (body : json).

Definition handleSubmit (query repoOwner repoName : string) : Submission :=
  if (JS.trim query =? "")%string then Ignored
  else if asks_weather_agent query then WeatherAnswer
  else Request (JObj [("query", JStr (JS.trim query));
                      ("owner", JStr repoOwner);
                      ("repo", JStr repoName)]).

(** [setOllamaStatus]'s argument. *)
Record OllamaStatus := mkStatus { connected : bool; model : string }.

(** [models.map((m) => m.name).join(", ")]: [None] when an element is
    [null]; in [join] a missing or [null] name is the empty string. *)
Fixpoint model_names (models : list json) : option (list string) :=
  match models with
  | [] => Some []
  | m :: rest =>
      match Json.get m "name", model_names rest with
      | Some v, Some names =>
          Some (match v with
                | None => ""
                | Some JNull => ""
                | Some x => Json.toString x
                end :: names)
      | _, _ => None
      end
  end.

Section WithEnv.

Variable env : Env.

(** The models of the tag list, as [checkOllama] reads them. *)
Definition listed_models (data : json) : M (list json) :=
  match Json.get data "models" with
  | None => throw "TypeError: cannot read properties of null"
  | Some models =>
      match (if Json.truthy models then models else Some (JArr [])) with
      | Some (JArr items) => ret items
      | _ => throw "TypeError: models.some is not a function"
      end
  end.

Definition some_model (modelName : string) (items : list json) : M bool :=
  match AgentFile.some_named modelName items with
  | Some b => ret b
  | None => throw "TypeError: cannot read properties of null"
  end.

(** [checkOllama()] of the first effect; the answer is the status set. *)
Definition checkOllama : M OllamaStatus :=
  try_catch
    (versionRes <- fetch env "http://localhost:11434/api/version" ;;
     if negb (ok versionRes) then ret (mkStatus false "Fallback (Simulation)")
     else
       tagsRes <- fetch env AgentFile.ollama_tags ;;
       if negb (ok tagsRes) then ret (mkStatus true "Unknown")
       else
         data <- response_json tagsRes ;;
         models <- listed_models data ;;
         hasCustomModel <- some_model "llama3.1-resume:custom" models ;;
         hasLlama3 <- some_model "llama3" models ;;
         if hasCustomModel then ret (mkStatus true "llama3.1-resume:custom")
         else if hasLlama3 then ret (mkStatus true "llama3 (fallback)")
         else
           match model_names models with
           | Some names =>
               ret (mkStatus true
                      ("Available models: " ++ JS.join ", " names))
           | None => throw "TypeError: cannot read properties of null"
           end)
    (fun _ => ret (mkStatus false "Fallback (Simulation)")).

End WithEnv.

End Page.

(** ** Requests in sequence and requests interleaved *)

Definition initial_state : State := mkState None [].

(** The requests of [bodies] served one after the other. *)
Fixpoint serve (env : Env) (bodies : list (option json)) (st : State)
    : list (Result NextResponse) * State :=
  match bodies with
  | [] => ([], st)
  | b :: rest =>
      let '(r, st1) := Route.POST env b st in
      let '(rs, st2) := serve env rest st1 in
      (r :: rs, st2)
  end.

(** The context handed to the agent by the last [generate] of a trace. *)
Fixpoint last_generate (tr : list Event) : option RuntimeContext :=
  match tr with
  | [] => None
  | e :: rest =>
      match last_generate rest with
      | Some ctx => Some ctx
      | None => match e with
                | EGenerate _ _ ctx => Some ctx
                | _ => None
                end
      end
  end.

Fixpoint count_initialize (tr : list Event) : nat :=
  match tr with
  | [] => O
  | EInitializeMastra :: rest => S (count_initialize rest)
  | _ :: rest => count_initialize rest
  end.

(** What one request can do to the shared state between two of its
    [await]s, in any interleaving with other requests: reach the [if] of
    [getMastraComponents], see the stored promise settle, write the
    repository into the shared context, or talk to the network or to the
    agent. *)
Inductive step (env : Env) : State -> State -> Prop :=
| step_call st :
    step env st
      (snd (match mastraPromise st with
            | None => Route.start_initialization st
            | Some _ => ret tt st
            end))
| step_settle st :
    mastraPromise st = Some Pending ->
    step env st (snd (Route.settle env st))
| step_set st owner repo :
    step env st (snd (Route.set_repository owner repo st))
| step_fetch st url :
    step env st (snd (fetch env url st))
| step_generate st c query :
    step env st (snd (Route.generate env c query st)).

Inductive steps (env : Env) : State -> State -> Prop :=
| steps_refl st : steps env st st
| steps_cons st1 st2 st3 :
    step env st1 st2 -> steps env st2 st3 -> steps env st1 st3.

Definition agent_of (p : option Promise) : option Agent :=
  match p with
  | Some (Fulfilled c) => Some (githubAgent c)
  | _ => None
  end.

(** ** Vocabulary of the statements *)

(** The state once [events] have taken place. *)
Definition after (st : State) (events : list Event) : State :=
  mkState (mastraPromise st) (trace st ++ events).

Definition contains (hay needle : string) : Prop :=
  exists pre post, hay = pre ++ needle ++ post.

Definition marker (tool : string) : string := "--- " ++ tool ++ " ---".

Definition tool_names : list string :=
  ["fetch_repository_metadata"; "fetch_repository_readme";
   "search_repository_contents"; "fetch_repository_structure"].

Definition markers_in_order (prompt : string) : Prop :=
  exists a b c d e,
    prompt = a ++ marker "fetch_repository_metadata"
               ++ b ++ marker "fetch_repository_readme"
               ++ c ++ marker "search_repository_contents"
               ++ d ++ marker "fetch_repository_structure" ++ e.

(** No match of the pattern [at_start] begins inside the first [n] code
    units of [prompt]. *)
Definition no_match_before (at_start : string -> option string)
    (prompt : string) (n : nat) : Prop :=
  forall i, (i < n)%nat -> at_start (JS.drop i prompt) = None.

Definition no_match_beforeb (at_start : string -> option string)
    (prompt : string) (n : nat) : bool :=
  forallb (fun i => match at_start (JS.drop i prompt) with
                    | None => true
                    | Some _ => false
                    end) (seq 0 n).

(** Whatever [m] does to the state is made of steps. *)
Definition stepwise (env : Env) {A} (m : M A) : Prop :=
  forall st, steps env st (snd (m st)).

(** [m] neither reads nor writes the cached components: on a trace it gives
    one answer and adds the same events whatever the cache holds. *)
Definition cache_blind {A} (m : M A) : Prop :=
  forall tr, exists r evs,
    forall p, m (mkState p tr) = (r, mkState p (tr ++ evs)).

Definition ollama_version : string := "http://localhost:11434/api/version".

(** The three literals of the metadata that the simulated completion reads. *)
Definition full_name_literal : string :=
  Regex.full_name_key ++ " " ++ JS.dq ++ "octo/demo" ++ JS.dq.
Definition stargazers_literal : string := Regex.stargazers_key ++ " 42".
Definition description_literal : string :=
  Regex.description_key ++ " " ++ JS.dq ++ "a demo repo" ++ JS.dq.

(** An answer that carries a note: an object with a string under [note]. *)
Definition carries_note (v : json) : Prop :=
  exists fields note,
    v = JObj fields /\ Json.lookup "note" fields = Some (JStr note).

(** The body's [query] is missing, empty, or not a string. *)
Definition missing_empty_or_not_string (query : Json.value) : Prop :=
  query = None \/ query = Some (JStr "") \/ forall s, query <> Some (JStr s).

(** The search string as the specification words it: lower-case the query,
    strip the code units that [stripped] names, split on white space, keep
    the tokens longer than 3, take the first 3 at most, join with a plus
    sign; the default when no token is left.  A token is a maximal run of
    code units that are not white space. *)
Module Described.

Fixpoint tokens_go (s cur : string) : list string :=
  match s with
  | EmptyString => if (cur =? "")%string then [] else [cur]
  | String c t =>
      if JS.is_space c
      then if (cur =? "")%string then tokens_go t ""
           else cur :: tokens_go t ""
      else tokens_go t (cur ++ String c "")
  end.

Definition tokens (s : string) : list string := tokens_go s "".

Definition searchQuery (stripped : ascii -> bool) (query : string) : string :=
  let kept :=
    filter (fun t => (3 <? String.length t)%nat)
      (tokens (JS.filter_chars (fun c => negb (stripped c))
                 (JS.toLowerCase query))) in
  match firstn 3 kept with
  | [] => "api+endpoint+feature"
  | first3 => JS.join "+" first3
  end.

(** Letters of U+0000..U+00FF: A-Z, a-z, the ordinal indicators, the micro
    sign and U+00C0..U+00FF other than the two arithmetic signs. *)
Definition is_letter (c : ascii) : bool :=
  let n := JS.code c in
  ((65 <=? n) && (n <=? 90)) || ((97 <=? n) && (n <=? 122))
  || (n =? 170) || (n =? 181) || (n =? 186)
  || ((192 <=? n) && negb (n =? 215) && negb (n =? 247)).

(** Punctuation in the widest sense: whatever is not a letter, a digit or
    white space. *)
Definition is_punctuation (c : ascii) : bool :=
  negb (is_letter c || JS.is_digit c || JS.is_space c).

(** What the regular expression of the source removes: whatever is neither a
    word character (ASCII letter, digit, underscore) nor white space. *)
Definition not_word_nor_space (c : ascii) : bool :=
  negb (JS.is_word c || JS.is_space c).

End Described.

(** ** Concrete environments and inputs *)

Definition reply_all (r : HttpResponse) : Env :=
  mkEnv (fun _ _ => Response r) (fun _ => Some 0%nat)
    (fun _ _ _ _ => Some "answer").

(** Every request is answered 404 without a body. *)
Definition env_not_found : Env := reply_all (mkHttp 404 None).

(** Every request is answered 200 with an empty object. *)
Definition env_ok : Env := reply_all (mkHttp 200 (Some (JObj []))).

Definition listing : json :=
  JArr [JObj [("name", JStr "README.md"); ("type", JStr "file")]].

(** The code search is rate limited (403), the rest answers the listing. *)
Definition env_search_limited : Env :=
  mkEnv (fun _ url =>
           if String.prefix "https://api.github.com/search/" url
           then Response (mkHttp 403 None)
           else Response (mkHttp 200 (Some listing)))
    (fun _ => Some 0%nat) (fun _ _ _ _ => Some "answer").

Definition e_acute : string := String "233"%char "".

Definition resume_query : string :=
  "r" ++ e_acute ++ "sum" ++ e_acute ++ " tips".

Definition install_readme : string :=
  "## Installation" ++ JS.nl ++ "Run npm install" ++ JS.nl ++ "## Usage"
  ++ JS.nl ++ "...".

Definition install_section : string :=
  "## Installation" ++ JS.nl ++ "Run npm install" ++ JS.nl.

Definition demo_metadata : json :=
  JObj [("full_name", JStr "octo/demo"); ("stargazers_count", JNum "42");
        ("description", JStr "a demo repo")].

Definition four_results (metadata readme search structure : string)
    : list ToolResult :=
  [mkToolResult "fetch_repository_metadata" metadata;
   mkToolResult "fetch_repository_readme" readme;
   mkToolResult "search_repository_contents" search;
   mkToolResult "fetch_repository_structure" structure].

Definition install_prompt : string :=
  formatToolResultsForLLM "How do I install this?"
    (four_results (Json.stringify demo_metadata) install_readme "[]" "[]").

(** A prompt of the pipeline for another repository whose README quotes the
    three literals. *)
Definition quoting_prompt : string :=
  formatToolResultsForLLM "hello"
    (four_results
       (Json.stringify
          (JObj [("full_name", JStr "x/y"); ("stargazers_count", JNum "7");
                 ("description", JStr "other")]))
       ("Sample: {" ++ full_name_literal ++ ", " ++ stargazers_literal
        ++ ", " ++ description_literal ++ "}")
       "[]" "[]").

(** A prompt where the three literals are the first matches. *)
Definition literal_prompt : string :=
  prompt_intro "hello" ++ "{" ++ full_name_literal ++ ", "
  ++ stargazers_literal ++ ", " ++ description_literal ++ "}".

Fixpoint repeat_string (s : string) (n : nat) : string :=
  match n with
  | O => ""
  | S k => s ++ repeat_string s k
  end.

Definition body_of (query : string) (owner repo : option string) : json :=
  JObj ([("query", JStr query)]
        ++ match owner with Some o => [("owner", JStr o)] | None => [] end
        ++ match repo with Some r => [("repo", JStr r)] | None => [] end)%list.

(** ** Vocabulary of the further properties *)

(** No code unit of [s] is the double quote. *)
Definition quote_free (s : string) : Prop := ~ contains s JS.dq.

Fixpoint all_chars (p : ascii -> bool) (s : string) : bool :=
  match s with
  | EmptyString => true
  | String c t => p c && all_chars p t
  end.

(** A lower-case ASCII letter, a digit or the underscore. *)
Definition token_char (c : ascii) : bool :=
  ((97 <=? JS.code c) && (JS.code c <=? 122)) || JS.is_digit c
  || (JS.code c =? 95).

(** A [token_char] or the plus sign. *)
Definition search_char (c : ascii) : bool :=
  token_char c || (JS.code c =? 43).

(** The two shapes of an answer of the route: 200 with the response text, or
    400 / 500 with an error text. *)
Definition well_formed_answer (r : NextResponse) : Prop :=
  (exists text, r = mkNext 200 (JObj [("response", JStr text)]))
  \/ (exists msg,
        (http_status r = 400 \/ http_status r = 500)
        /\ payload r = JObj [("error", JStr msg)]).

(** From every state, [m] moves the state along [R], and what it returns
    satisfies [P]. *)
Definition establishes {A} (R : State -> State -> Prop) (P : A -> Prop)
    (m : M A) : Prop :=
  forall st,
    R st (snd (m st))
    /\ match fst (m st) with
       | Ok a => P a
       | Thrown _ => True
       end.

(** The cache is kept and the trace grows by requests alone. *)
Definition only_fetches (st st' : State) : Prop :=
  mastraPromise st' = mastraPromise st
  /\ exists urls, trace st' = (trace st ++ map EFetch urls)%list.

Definition any_state (st st' : State) : Prop := True.

Definition anything {A} (a : A) : Prop := True.

(** From every state, [m] returns, and what it returns satisfies [P]. *)
Definition always {A} (P : A -> Prop) (m : M A) : Prop :=
  forall st, exists a, fst (m st) = Ok a /\ P a.

Definition not_rejected (r : NextResponse) : Prop :=
  well_formed_answer r /\ http_status r <> 400.

(** What [POST] runs once the query has passed the validation. *)
Definition agent_flow (env : Env) (query : string) (owner repo : Json.value)
    : M NextResponse :=
  try_catch
    (c <- Route.getMastraComponents env ;;
     _ <- match owner, repo with
          | Some o, Some r =>
              if Json.truthy owner && Json.truthy repo
              then Route.set_repository o r
              else ret tt
          | _, _ => ret tt
          end ;;
     try_catch
       (ollamaTest <- fetch env "http://localhost:11434/api/version" ;;
        if negb (ok ollamaTest)
        then Route.fallbackProcessing env query owner repo
        else
          text <- Route.generate env c query ;;
          ret (mkNext 200 (JObj [("response", JStr text)])))
       (fun _ => Route.fallbackProcessing env query owner repo))
    (fun _ => Route.fallbackProcessing env query owner repo).

(** The body's [query] is a string that is not empty. *)
Definition valid_query (parsed : json) (q : string) : Prop :=
  Json.get parsed "query" = Some (Some (JStr q)) /\ q <> "".

(** The tag list names [PREFERRED_MODEL] first. *)
Definition tags_with_preferred : json :=
  JObj [("models",
         JArr [JObj [("name", JStr "llama3.1-resume:custom")];
               JObj [("name", JStr "llama3")]])].

Definition env_tags : Env :=
  reply_all (mkHttp 200 (Some tags_with_preferred)).

(** Nothing answers on the network, and the agent cannot be built. *)
Definition env_offline : Env :=
  mkEnv (fun _ _ => NetworkError) (fun _ => None) (fun _ _ _ _ => None).

(** * Properties *)

(** ** Strings *)

Lemma append_nil_r (s : string) : s ++ "" = s.
Proof. induction s as [|c s IH]; simpl; [reflexivity | now rewrite IH]. Qed.

Lemma append_assoc (a b c : string) : (a ++ b) ++ c = a ++ b ++ c.
Proof. induction a as [|x a IH]; simpl; [reflexivity | now rewrite IH]. Qed.

Lemma length_append (a b : string) :
  String.length (a ++ b) = (String.length a + String.length b)%nat.
Proof. induction a as [|x a IH]; simpl; [reflexivity | now rewrite IH]. Qed.

Lemma take_drop (n : nat) (s : string) : JS.take n s ++ JS.drop n s = s.
Proof.
  revert s; induction n as [|n IH]; intros [|c s]; simpl; try reflexivity.
  now rewrite IH.
Qed.

Lemma length_take (n : nat) (s : string) :
  (n <= String.length s)%nat -> String.length (JS.take n s) = n.
Proof.
  revert s; induction n as [|n IH]; intros [|c s]; simpl; intros H;
    try reflexivity; try lia.
  rewrite IH; [reflexivity | lia].
Qed.

Lemma drop_append (pre s : string) : JS.drop (String.length pre) (pre ++ s) = s.
Proof. induction pre as [|c pre IH]; simpl; [reflexivity | exact IH]. Qed.

Lemma prefix_nil (s : string) : String.prefix "" s = true.
Proof. destruct s; reflexivity. Qed.

Lemma prefix_append (k s : string) : String.prefix k (k ++ s) = true.
Proof.
  induction k as [|c k IH]; simpl; [apply prefix_nil|].
  destruct (ascii_dec c c) as [_|n]; [exact IH | now elim n].
Qed.

Lemma contains_refl (s : string) : contains s s.
Proof. exists "", "". simpl. now rewrite append_nil_r. Qed.

Lemma contains_append_l (pre hay needle : string) :
  contains hay needle -> contains (pre ++ hay) needle.
Proof.
  intros (a & b & ->). exists (pre ++ a), b. now rewrite append_assoc.
Qed.

Lemma contains_append_r (hay post needle : string) :
  contains hay needle -> contains (hay ++ post) needle.
Proof.
  intros (a & b & ->). exists a, (b ++ post). now rewrite !append_assoc.
Qed.

Lemma contains_trans (a b c : string) :
  contains a b -> contains b c -> contains a c.
Proof.
  intros (p & q & ->) Hbc.
  apply contains_append_l, contains_append_r, Hbc.
Qed.

(** ** The prompt synthesizer *)

Lemma fold_add_result (results : list ToolResult) (prompt : string) :
  fold_left add_result results prompt
  = prompt
    ++ fold_right
         (fun r rest =>
            marker (name r) ++ JS.nl ++ limit_content (content r) ++ JS.nl
            ++ JS.nl ++ rest) "" results.
Proof.
  revert prompt; induction results as [|r results IH]; intros prompt; simpl.
  - now rewrite append_nil_r.
  - rewrite IH. unfold add_result, marker.
    now rewrite !append_assoc.
Qed.

Lemma limit_content_long (c : string) :
  JS.len c > 2000 ->
  limit_content c = JS.take 2000 c ++ truncated_suffix.
Proof.
  intros H. unfold limit_content.
  destruct (JS.len c >? 2000) eqn:E; [|lia].
  unfold JS.substring, JS.clamp.
  replace (Z.to_nat (Z.min (Z.max 0 0) (JS.len c))) with 0%nat by lia.
  replace (Z.to_nat (Z.min (Z.max 2000 0) (JS.len c))) with 2000%nat by lia.
  reflexivity.
Qed.

Lemma limit_content_short (c : string) :
  JS.len c <= 2000 -> limit_content c = c.
Proof.
  intros H. unfold limit_content.
  destruct (JS.len c >? 2000) eqn:E; [lia | reflexivity].
Qed.

(** C2.  The prompt is the introduction, one block per result in list order
    and the closing instructions; the block of a result is its marker line,
    its embedded content and an empty line.  The embedded content of a
    result longer than 2000 code units is its first 2000 code units followed
    by the suffix "... (truncated)"; a content of at most 2000 code units is
    embedded unchanged. *)
Theorem truncated_content_in_prompt (query : string)
    (results : list ToolResult) :
  exists embedded : ToolResult -> string,
    formatToolResultsForLLM query results
    = prompt_intro query
      ++ fold_right
           (fun r rest =>
              marker (name r) ++ JS.nl ++ embedded r ++ JS.nl ++ JS.nl
              ++ rest) "" results
      ++ prompt_closing
    /\ forall r,
         (JS.len (content r) > 2000 ->
          exists first rest,
            content r = first ++ rest
            /\ String.length first = 2000%nat
            /\ embedded r = first ++ "... (truncated)")
         /\ (JS.len (content r) <= 2000 -> embedded r = content r).
Proof.
  exists (fun r => limit_content (content r)). split.
  - unfold formatToolResultsForLLM. rewrite fold_add_result.
    now rewrite append_assoc.
  - intros r; split; intros H.
    + exists (JS.take 2000 (content r)), (JS.drop 2000 (content r)).
      split; [now rewrite take_drop|]. split.
      * apply length_take. unfold JS.len in H. lia.
      * now apply limit_content_long.
    + now apply limit_content_short.
Qed.

(** ** The fallback fetchers *)

Ltac run_fetcher :=
  unfold try_catch, bind, fetch, response_json, ret, throw; simpl;
  repeat match goal with
         | |- context [match fetch_reply ?e ?t ?u with _ => _ end] =>
             destruct (fetch_reply e t u) as [|?r]; simpl
         | |- context [if negb (ok ?r) then _ else _] =>
             destruct (ok r); simpl
         | |- context [match body ?r with _ => _ end] =>
             destruct (body r) as [?v|]; simpl
         end.

Section Fetchers.

Variable env : Env.

Lemma fetchRepositoryMetadata_outcome (repo : string) (st : State) :
  let url := "https://api.github.com/repos/" ++ repo in
  snd (Route.fetchRepositoryMetadata env repo st) = after st [EFetch url]
  /\ fst (Route.fetchRepositoryMetadata env repo st)
     = match fetch_reply env (trace st) url with
       | NetworkError => Thrown "TypeError: fetch failed"
       | Response r =>
           if ok r
           then match body r with
                | Some v => Ok v
                | None => Thrown "SyntaxError: Unexpected token in JSON"
                end
           else Thrown (github_error r)
       end.
Proof.
  unfold Route.fetchRepositoryMetadata. run_fetcher; split; reflexivity.
Qed.

(** On a network failure and on every status outside 200..299 the fallback
    metadata fetcher raises. *)
Lemma fetchRepositoryMetadata_raises (repo : string) (st : State) :
  match fetch_reply env (trace st) ("https://api.github.com/repos/" ++ repo)
  with
  | NetworkError => True
  | Response r => ok r = false
  end ->
  exists e, fst (Route.fetchRepositoryMetadata env repo st) = Thrown e.
Proof.
  intros H.
  destruct (fetchRepositoryMetadata_outcome repo st) as [_ ->].
  destruct (fetch_reply env (trace st) _) as [|r]; [eauto|].
  rewrite H. eauto.
Qed.

Lemma fetchRepositoryReadme_returns (repo : string) (st : State) :
  exists text,
    Route.fetchRepositoryReadme env repo st
    = (Ok text,
       after st [EFetch ("https://api.github.com/repos/" ++ repo ++ "/readme")]).
Proof.
  unfold Route.fetchRepositoryReadme. run_fetcher; eauto.
  destruct (Json.get v "content") as [c|]; simpl; eauto.
  destruct (Json.truthy c); simpl; eauto.
  destruct c as [[]|]; simpl; eauto.
  destruct (Base64.atob _); simpl; eauto.
Qed.

Lemma searchRepositoryContents_returns (repo query : string) (st : State) :
  exists items again,
    Route.searchRepositoryContents env repo query st
    = (Ok items,
       after st
         ([EFetch ("https://api.github.com/search/code?q="
                   ++ searchQuery_of query ++ "+repo:" ++ repo)] ++ again))
    /\ (again = []
        \/ again
           = [EFetch ("https://api.github.com/repos/" ++ repo ++ "/contents")]).
Proof.
  unfold Route.searchRepositoryContents, after. run_fetcher;
    rewrite <- ?app_assoc; simpl;
    try (destruct (Json.get _ "items") as [c|]; simpl); eauto 6.
Qed.

Lemma fetchRepositoryStructure_returns (repo : string) (st : State) :
  exists items,
    Route.fetchRepositoryStructure env repo st
    = (Ok items,
       after st
         [EFetch ("https://api.github.com/repos/" ++ repo ++ "/contents")]).
Proof. unfold Route.fetchRepositoryStructure. run_fetcher; eauto. Qed.

(** The orchestrator raises exactly when the metadata fetcher does; when it
    returns, it returns the four results in the fixed order, after the
    requests for metadata, readme, search and structure in that order. *)
Lemma executeGitHubTools_outcome (repo query : string) (st : State) :
  match Route.fetchRepositoryMetadata env repo st with
  | (Thrown e, st1) =>
      Route.executeGitHubTools env repo query st = (Thrown e, st1)
  | (Ok metadata, _) =>
      exists readme search structure again,
        Route.executeGitHubTools env repo query st
        = (Ok (four_results (Json.stringify metadata) readme
                 (Json.stringify search) (Json.stringify structure)),
           after st
             ([EFetch ("https://api.github.com/repos/" ++ repo);
               EFetch ("https://api.github.com/repos/" ++ repo ++ "/readme");
               EFetch ("https://api.github.com/search/code?q="
                       ++ searchQuery_of query ++ "+repo:" ++ repo)]
              ++ again
              ++ [EFetch ("https://api.github.com/repos/" ++ repo
                          ++ "/contents")]))
        /\ (again = []
            \/ again
               = [EFetch ("https://api.github.com/repos/" ++ repo
                          ++ "/contents")])
  end.
Proof.
  pose proof (fetchRepositoryMetadata_outcome repo st) as [Hst _].
  unfold Route.executeGitHubTools, try_catch, bind.
  destruct (Route.fetchRepositoryMetadata env repo st) as [[metadata|e] st1];
    [|reflexivity].
  cbn [snd] in Hst; subst st1.
  match goal with
  | |- context [Route.fetchRepositoryReadme env repo ?s] =>
      destruct (fetchRepositoryReadme_returns repo s) as [readme ->]
  end.
  match goal with
  | |- context [Route.searchRepositoryContents env repo query ?s] =>
      destruct (searchRepositoryContents_returns repo query s)
        as (search & again & -> & Hagain)
  end.
  match goal with
  | |- context [Route.fetchRepositoryStructure env repo ?s] =>
      destruct (fetchRepositoryStructure_returns repo s) as [structure ->]
  end.
  exists readme, search, structure, again. split; [|exact Hagain].
  unfold ret, after, four_results; simpl.
  now rewrite <- !app_assoc.
Qed.

End Fetchers.

Lemma four_results_in_order (query metadata readme search structure : string) :
  markers_in_order
    (formatToolResultsForLLM query
       (four_results metadata readme search structure)).
Proof.
  unfold formatToolResultsForLLM. rewrite fold_add_result.
  exists (prompt_intro query),
    (JS.nl ++ limit_content metadata ++ JS.nl ++ JS.nl),
    (JS.nl ++ limit_content readme ++ JS.nl ++ JS.nl),
    (JS.nl ++ limit_content search ++ JS.nl ++ JS.nl),
    (JS.nl ++ limit_content structure ++ JS.nl ++ JS.nl ++ prompt_closing).
  unfold four_results; cbn [fold_right name content].
  now rewrite !append_assoc.
Qed.

(** C1.  Where every request is answered 404, the fallback metadata fetcher
    raises instead of returning an error value, and the fallback pipeline
    ends in the 500 answer; the agent tool of the same name returns an
    object with an error text on the same answer. *)
Theorem fetchRepositoryMetadata_raises_on_404 :
  fst (Route.fetchRepositoryMetadata env_not_found "octo/demo" initial_state)
  = Thrown "GitHub API error: 404"
  /\ fst (Route.fallbackProcessing env_not_found "How do I run this?"
            (Some (JStr "octo")) (Some (JStr "demo")) initial_state)
     = Ok (mkNext 500
             (JObj [("error",
                     JStr "Failed to process request in fallback mode")]))
  /\ fst (AgentTools.fetchRepositoryMetadata env_not_found
            (AgentTools.mkToolContext (Some "octo") (Some "demo"))
            default_context initial_state)
     = Ok (JObj [("error", JStr "Failed to fetch repository metadata")]).
Proof. repeat split; vm_compute; reflexivity. Qed.

(** C3.  Whenever the orchestrator returns, it has asked for metadata,
    readme, search and structure in that order, its results carry the four
    tool names in that order, and the prompt synthesized from them holds the
    four markers in that order. *)
Theorem markers_in_fixed_order (env : Env) (repo query : string)
    (st st' : State) (results : list ToolResult) :
  Route.executeGitHubTools env repo query st = (Ok results, st') ->
  map name results = tool_names
  /\ markers_in_order (formatToolResultsForLLM query results)
  /\ exists again,
       trace st'
       = (trace st
          ++ [EFetch ("https://api.github.com/repos/" ++ repo);
              EFetch ("https://api.github.com/repos/" ++ repo ++ "/readme");
              EFetch ("https://api.github.com/search/code?q="
                      ++ searchQuery_of query ++ "+repo:" ++ repo)]
          ++ again
          ++ [EFetch ("https://api.github.com/repos/" ++ repo ++ "/contents")])%list.
Proof.
  intros H.
  pose proof (executeGitHubTools_outcome env repo query st) as Hout.
  destruct (Route.fetchRepositoryMetadata env repo st) as [[metadata|e] st1].
  - destruct Hout as (readme & search & structure & again & Heq & _).
    rewrite Heq in H. injection H as <- <-.
    split; [reflexivity|]. split; [apply four_results_in_order|].
    exists again. reflexivity.
  - rewrite Hout in H. discriminate.
Qed.

Lemma markers_in_fixed_order_witness :
  exists results st',
    Route.executeGitHubTools env_ok "octo/demo" "how do stars work"
      initial_state = (Ok results, st')
    /\ map name results = tool_names
    /\ markers_in_order (formatToolResultsForLLM "how do stars work" results).
Proof.
  eexists _, _. split; [vm_compute; reflexivity|].
  pose proof (markers_in_fixed_order env_ok "octo/demo" "how do stars work"
                initial_state _ _ eq_refl) as (Hn & Hm & _).
  split; [exact Hn | exact Hm].
Defined.

(** ** The search fallback *)

(** C5, as stated, fails: the code search is answered 403, the contents
    request is answered with a listing, and the fallback fetcher returns the
    listing alone, which carries no note. *)
Lemma search_fallback_without_note :
  fetch_reply env_search_limited []
    "https://api.github.com/search/code?q=stars+work+repo:octo/demo"
  = Response (mkHttp 403 None)
  /\ fst (Route.searchRepositoryContents env_search_limited "octo/demo"
            "how do stars work" initial_state) = Ok listing
  /\ ~ carries_note listing.
Proof.
  split; [reflexivity|]. split; [vm_compute; reflexivity|].
  intros (fields & note & H & _). discriminate H.
Qed.

(** C5, amended.  When the code search is answered with a status outside
    200..299, the fallback fetcher asks for the contents listing: answered
    within 200..299 it returns the parsed listing itself, with no note
    added; when that request fails too, by its status or on the network, it
    returns the empty list. *)
Theorem search_fallback_returns_listing (env : Env) (repo query : string)
    (st : State) (r1 : HttpResponse) :
  let searchUrl :=
    "https://api.github.com/search/code?q=" ++ searchQuery_of query
    ++ "+repo:" ++ repo in
  let contentsUrl := "https://api.github.com/repos/" ++ repo ++ "/contents" in
  let asked := (trace st ++ [EFetch searchUrl])%list in
  fetch_reply env (trace st) searchUrl = Response r1 ->
  ok r1 = false ->
  snd (Route.searchRepositoryContents env repo query st)
  = after st [EFetch searchUrl; EFetch contentsUrl]
  /\ fst (Route.searchRepositoryContents env repo query st)
     = match fetch_reply env asked contentsUrl with
       | Response r2 =>
           if ok r2
           then match body r2 with
                | Some items => Ok items
                | None => Ok (JArr [])
                end
           else Ok (JArr [])
       | NetworkError => Ok (JArr [])
       end.
Proof.
  intros searchUrl contentsUrl asked H1 Hok.
  unfold Route.searchRepositoryContents, try_catch, bind, fetch, after.
  fold searchUrl contentsUrl. rewrite H1. cbn [negb]. rewrite Hok.
  cbn [negb trace mastraPromise]. fold asked.
  unfold response_json, ret, throw.
  destruct (fetch_reply env asked contentsUrl) as [|r2]; cbn.
  - unfold asked. rewrite <- app_assoc. split; reflexivity.
  - destruct (ok r2); cbn; [destruct (body r2); cbn|];
      unfold asked; rewrite <- app_assoc; split; reflexivity.
Qed.

Lemma search_fallback_returns_listing_witness :
  fst (Route.searchRepositoryContents env_search_limited "octo/demo"
         "how do stars work" initial_state) = Ok listing.
Proof.
  exact (proj2 (search_fallback_returns_listing env_search_limited
                  "octo/demo" "how do stars work" initial_state
                  (mkHttp 403 None) eq_refl eq_refl)).
Defined.

(** The agent tool, on the same answers, wraps the listing and adds the
    note. *)
Lemma agent_search_fallback_note (env : Env)
    (context : AgentTools.ToolContext) (rc : RuntimeContext)
    (query : string) (st : State) (r1 r2 : HttpResponse) (items : json) :
  let repo := AgentTools.repository context rc in
  let searchUrl :=
    "https://api.github.com/search/code?q=" ++ searchQuery_of query
    ++ "+repo:" ++ repo in
  let contentsUrl := "https://api.github.com/repos/" ++ repo ++ "/contents" in
  fetch_reply env (trace st) searchUrl = Response r1 ->
  ok r1 = false ->
  fetch_reply env (trace st ++ [EFetch searchUrl]) contentsUrl = Response r2 ->
  ok r2 = true ->
  body r2 = Some items ->
  fst (AgentTools.searchRepositoryContents env context query rc st)
  = Ok (JObj [("items", items); ("note", JStr AgentTools.fallback_note)]).
Proof.
  intros repo searchUrl contentsUrl H1 Hok1 H2 Hok2 Hbody.
  unfold AgentTools.searchRepositoryContents, try_catch, bind, fetch.
  fold repo. fold searchUrl contentsUrl. rewrite H1. cbn [negb].
  rewrite Hok1. cbn [negb trace mastraPromise]. rewrite H2, Hok2.
  cbn [negb]. unfold response_json. rewrite Hbody. reflexivity.
Qed.

(** ** The search string *)

Lemma filter_chars_ext (p q : ascii -> bool) (s : string) :
  (forall c, p c = q c) -> JS.filter_chars p s = JS.filter_chars q s.
Proof.
  intros H; induction s as [|c s IH]; simpl; [reflexivity|].
  now rewrite H, IH.
Qed.

Lemma filter_implied {A} (f g : A -> bool) (l : list A) :
  (forall x, f x = true -> g x = true) ->
  filter f (filter g l) = filter f l.
Proof.
  intros H; induction l as [|x l IH]; simpl; [reflexivity|].
  destruct (g x) eqn:G; simpl.
  - now rewrite IH.
  - destruct (f x) eqn:F; [|exact IH].
    apply H in F. congruence.
Qed.

(** The pieces of [split] that are not empty are the tokens. *)
Lemma split_ws_go_tokens (s cur : string) (insep : bool) :
  (insep = true -> cur = "") ->
  filter (fun t => negb (t =? "")%string) (JS.split_ws_go s cur insep)
  = Described.tokens_go s cur.
Proof.
  revert cur insep; induction s as [|c s IH]; intros cur insep Hsep; simpl.
  - destruct (cur =? "")%string; reflexivity.
  - destruct (JS.is_space c).
    + destruct insep.
      * rewrite (Hsep eq_refl). simpl. now apply IH.
      * simpl. destruct (cur =? "")%string; simpl;
          rewrite (IH "" true (fun _ => eq_refl)); reflexivity.
    + apply IH. discriminate.
Qed.

Lemma long_tokens_of_split (s : string) :
  filter (fun term => JS.len term >? 3) (JS.split_ws s)
  = filter (fun t => (3 <? String.length t)%nat) (Described.tokens s).
Proof.
  unfold Described.tokens.
  rewrite <- (split_ws_go_tokens s "" false) by discriminate.
  rewrite filter_implied.
  - apply filter_ext. intros t. unfold JS.len.
    destruct (Nat.ltb_spec 3 (String.length t)); lia.
  - intros [|c t]; [discriminate | reflexivity].
Qed.

(** C6, as stated, fails: an accented letter is not punctuation, yet the
    source strips it.  The question [resume_query] is the word resume with
    its two acute accents, followed by the word tips. *)
Lemma searchQuery_strips_letters :
  searchQuery_of resume_query = "rsum+tips"
  /\ Described.searchQuery Described.is_punctuation resume_query
     = "r" ++ e_acute ++ "sum" ++ e_acute ++ "+tips"
  /\ searchQuery_of resume_query
     <> Described.searchQuery Described.is_punctuation resume_query.
Proof.
  split; [vm_compute; reflexivity|]. split; [vm_compute; reflexivity|].
  vm_compute. discriminate.
Qed.

(** C6, amended.  For every query the search string is obtained by
    lower-casing the query, stripping every code unit that is neither a word
    character (ASCII letter, digit, underscore) nor white space, splitting
    on white space, keeping the tokens longer than 3, taking the first 3 at
    most and joining them with a plus sign, the default standing in when no
    token is left; the query "how do stars work" gives "stars+work". *)
Theorem searchQuery_as_described (query : string) :
  searchQuery_of query
  = Described.searchQuery Described.not_word_nor_space query
  /\ searchQuery_of "how do stars work" = "stars+work".
Proof.
  split; [|vm_compute; reflexivity].
  unfold searchQuery_of, searchTerms_of, Described.searchQuery.
  rewrite long_tokens_of_split.
  rewrite (filter_chars_ext
             (fun c => negb (Described.not_word_nor_space c))
             (fun c => JS.is_word c || JS.is_space c)).
  - destruct (firstn 3 _) as [|t ts]; reflexivity.
  - intros c. unfold Described.not_word_nor_space. apply negb_involutive.
Qed.

(** ** The simulated completion: which section is extracted *)

(** C7.  For every lower-cased question that contains "install", the section
    extracted from the README section made of an Installation header, the
    line "Run npm install", a Usage header and three dots is the slice from
    the Installation header up to the Usage header, the header left out. *)
Theorem installation_section_extracted (query : string) :
  JS.includes query "install" = true ->
  relevantContent_of query install_readme = install_section.
Proof.
  intros H. unfold relevantContent_of. rewrite H.
  rewrite orb_true_r. cbn [orb]. vm_compute. reflexivity.
Qed.

Lemma installation_section_extracted_witness :
  JS.includes "how do i install this?" "install" = true
  /\ relevantContent_of "how do i install this?" install_readme
     = install_section.
Proof.
  split; [vm_compute; reflexivity|].
  apply installation_section_extracted. vm_compute. reflexivity.
Defined.

(** The same through the pipeline: the prompt synthesized for the question
    "How do I install this?" yields that README section, and the answer
    quotes the extracted section. *)
Example install_prompt_answer :
  readmeSection_of install_prompt = install_readme
  /\ JS.includes (question_of install_prompt) "install" = true
  /\ simulateLLMCall install_prompt
     = found_response "octo/demo" install_section "42" "a demo repo".
Proof. repeat split; vm_compute; reflexivity. Qed.

(** C10.  The branches are tried in a fixed order and exclude one another: a
    question with run, install or setup gets the Installation / How to run
    extraction alone; otherwise one with feature, what or capabilities gets
    the Features extraction alone; otherwise one with api or endpoint gets
    the API extraction alone; otherwise nothing is extracted.  So a question
    with both run and feature gets the Installation / How to run extraction,
    and where the README has only a Features section, nothing. *)
Theorem branches_by_priority (query readmeSection : string) :
  let first :=
    JS.includes query "run" || JS.includes query "install"
    || JS.includes query "setup" in
  let second :=
    JS.includes query "feature" || JS.includes query "what"
    || JS.includes query "capabilities" in
  let third := JS.includes query "api" || JS.includes query "endpoint" in
  (first = true ->
   relevantContent_of query readmeSection
   = installation_content readmeSection)
  /\ (first = false -> second = true ->
      relevantContent_of query readmeSection = features_content readmeSection)
  /\ (first = false -> second = false -> third = true ->
      relevantContent_of query readmeSection = api_content readmeSection)
  /\ (first = false -> second = false -> third = false ->
      relevantContent_of query readmeSection = "")
  /\ (JS.includes query "run" = true -> JS.includes query "feature" = true ->
      relevantContent_of query readmeSection
      = installation_content readmeSection
      /\ (JS.indexOf readmeSection "## Installation" 0 = -1 ->
          JS.indexOf readmeSection "## How to run" 0 = -1 ->
          relevantContent_of query readmeSection = "")).
Proof.
  intros first second third. unfold relevantContent_of.
  fold first second third.
  split; [|split; [|split; [|split]]].
  - intros ->. reflexivity.
  - intros -> ->. reflexivity.
  - intros -> -> ->. reflexivity.
  - intros -> -> ->. reflexivity.
  - intros Hrun _. unfold first. rewrite Hrun. cbn [orb]. split.
    + reflexivity.
    + intros Hi Hr. unfold installation_content. rewrite Hi, Hr.
      reflexivity.
Qed.

(** A question with both run and feature over a README that has a Features
    section only: the Features section is there, and is not extracted. *)
Example run_and_feature :
  let readme := "## Features" ++ JS.nl ++ "- fast" in
  features_content readme = readme
  /\ relevantContent_of "run the feature demo" readme = "".
Proof. split; vm_compute; reflexivity. Qed.

(** ** [includes] and containment *)

Lemma prefix_true (k s : string) :
  String.prefix k s = true -> exists post, s = k ++ post.
Proof.
  revert s; induction k as [|c k IH]; intros s H.
  - exists s. reflexivity.
  - destruct s as [|c' s]; simpl in H; [discriminate|].
    destruct (ascii_dec c c') as [->|_]; [|discriminate].
    destruct (IH s H) as [post ->]. exists post. reflexivity.
Qed.

Lemma indexOf_aux_eq (needle hay : string) (i : Z) :
  JS.indexOf_aux needle hay i
  = if String.prefix needle hay then i
    else match hay with
         | EmptyString => -1
         | String _ t => JS.indexOf_aux needle t (i + 1)
         end.
Proof. destruct hay; reflexivity. Qed.

Lemma indexOf_aux_found (needle pre post : string) (i : Z) :
  0 <= i -> JS.indexOf_aux needle (pre ++ needle ++ post) i <> -1.
Proof.
  revert i; induction pre as [|c pre IH]; intros i Hi;
    rewrite indexOf_aux_eq.
  - cbn [append]. rewrite prefix_append. lia.
  - destruct (String.prefix needle _); [lia|].
    cbn [append]. apply IH. lia.
Qed.

Lemma indexOf_aux_contains (needle hay : string) (i : Z) :
  JS.indexOf_aux needle hay i <> -1 -> contains hay needle.
Proof.
  revert i; induction hay as [|c hay IH]; intros i; rewrite indexOf_aux_eq.
  - destruct (String.prefix needle "") eqn:P; [|intros H; now elim H].
    intros _. destruct (prefix_true _ _ P) as [post E].
    exists "", post. exact E.
  - destruct (String.prefix needle (String c hay)) eqn:P.
    + intros _. destruct (prefix_true _ _ P) as [post E].
      exists "", post. exact E.
    + intros H. apply IH in H.
      apply (contains_append_l (String c "")) in H. exact H.
Qed.

Lemma includes_contains (hay needle : string) :
  JS.includes hay needle = true <-> contains hay needle.
Proof.
  unfold JS.includes, JS.indexOf, JS.clamp.
  replace (Z.to_nat (Z.min (Z.max 0 0) (JS.len hay))) with 0%nat
    by (unfold JS.len; lia).
  cbn [JS.drop Z.of_nat]. rewrite negb_true_iff, Z.eqb_neq. split.
  - apply indexOf_aux_contains.
  - intros (pre & post & ->). apply indexOf_aux_found. lia.
Qed.

Lemma not_includes_not_contains (hay needle : string) :
  JS.includes hay needle = false -> ~ contains hay needle.
Proof.
  intros H C. apply includes_contains in C. congruence.
Qed.

(** ** The simulated completion: the values read from the metadata *)

Lemma search_skip (at_start : string -> option string) (n : nat)
    (s : string) :
  no_match_before at_start s n ->
  Regex.search at_start s = Regex.search at_start (JS.drop n s).
Proof.
  revert s; induction n as [|n IH]; intros s H; [reflexivity|].
  destruct s as [|c s]; [reflexivity|].
  assert (H0 : at_start (String c s) = None) by (apply (H 0%nat); lia).
  cbn [JS.drop Regex.search]. rewrite H0. apply IH.
  intros i Hi. apply (H (S i)). lia.
Qed.

Lemma search_at (at_start : string -> option string)
    (pre rest value : string) :
  no_match_before at_start (pre ++ rest) (String.length pre) ->
  at_start rest = Some value ->
  Regex.search at_start (pre ++ rest) = Some value.
Proof.
  intros Hpre Hat. rewrite (search_skip _ _ _ Hpre), drop_append.
  destruct rest; simpl; now rewrite Hat.
Qed.

Lemma full_name_at_literal (post : string) :
  Regex.quoted_at Regex.full_name_key (full_name_literal ++ post)
  = Some "octo/demo".
Proof.
  unfold Regex.quoted_at, full_name_literal. rewrite !append_assoc.
  rewrite prefix_append, drop_append. vm_compute. reflexivity.
Qed.

Lemma description_at_literal (post : string) :
  Regex.quoted_at Regex.description_key (description_literal ++ post)
  = Some "a demo repo".
Proof.
  unfold Regex.quoted_at, description_literal. rewrite !append_assoc.
  rewrite prefix_append, drop_append. vm_compute. reflexivity.
Qed.

Lemma stargazers_at_literal (post : string) :
  exists more,
    Regex.digits_at Regex.stargazers_key (stargazers_literal ++ post)
    = Some ("42" ++ more).
Proof.
  exists (JS.take_while JS.is_digit post).
  unfold Regex.digits_at, stargazers_literal. rewrite !append_assoc.
  rewrite prefix_append, drop_append. reflexivity.
Qed.

Lemma response_contains (repoName relevantContent stars description : string)
    (found : bool) :
  let response :=
    if found
    then found_response repoName relevantContent stars description
    else generic_response repoName description stars in
  contains response repoName /\ contains response stars
  /\ contains response description.
Proof.
  destruct found; cbn zeta; unfold found_response, generic_response;
    repeat match goal with
           | |- _ /\ _ => split
           end.
  - eexists _, _. reflexivity.
  - exists ("Based on the GitHub repository " ++ repoName
            ++ ", I found this information:" ++ JS.nl ++ JS.nl
            ++ relevantContent ++ JS.nl ++ JS.nl ++ "This repository has ").
    eexists. rewrite !append_assoc. reflexivity.
  - exists ("Based on the GitHub repository " ++ repoName
            ++ ", I found this information:" ++ JS.nl ++ JS.nl
            ++ relevantContent ++ JS.nl ++ JS.nl ++ "This repository has "
            ++ stars ++ " stars and is described as: " ++ JS.dq).
    eexists. rewrite !append_assoc. reflexivity.
  - eexists _, _. reflexivity.
  - exists ("The repository " ++ repoName ++ " is a " ++ description
            ++ ". It has ").
    eexists. rewrite !append_assoc. reflexivity.
  - exists ("The repository " ++ repoName ++ " is a ").
    eexists. rewrite !append_assoc. reflexivity.
Qed.

(** C8, as stated, fails: the prompt of the pipeline for the repository x/y
    whose README quotes the three literals contains them, no README section
    matches its question, and the answer holds none of the three values: it
    tells of x/y, 7 stars and the description of x/y. *)
Lemma quoted_literals_not_in_response :
  contains quoting_prompt full_name_literal
  /\ contains quoting_prompt stargazers_literal
  /\ contains quoting_prompt description_literal
  /\ relevantContent_of (question_of quoting_prompt)
       (readmeSection_of quoting_prompt) = ""
  /\ ~ contains (simulateLLMCall quoting_prompt) "octo/demo"
  /\ ~ contains (simulateLLMCall quoting_prompt) "42"
  /\ ~ contains (simulateLLMCall quoting_prompt) "a demo repo".
Proof.
  repeat match goal with
         | |- _ /\ _ => split
         end;
    try (apply includes_contains; vm_compute; reflexivity);
    try (apply not_includes_not_contains; vm_compute; reflexivity).
  vm_compute. reflexivity.
Qed.

(** C8, amended.  For every prompt that contains the three literals, each
    at a place before which no match of its pattern begins, the answer of
    the simulated completion contains "octo/demo", "42" and "a demo repo",
    whether or not a README section matches the question. *)
Theorem first_literals_in_response (prompt : string)
    (pre1 post1 pre2 post2 pre3 post3 : string) :
  prompt = pre1 ++ full_name_literal ++ post1 ->
  no_match_before (Regex.quoted_at Regex.full_name_key) prompt
    (String.length pre1) ->
  prompt = pre2 ++ stargazers_literal ++ post2 ->
  no_match_before (Regex.digits_at Regex.stargazers_key) prompt
    (String.length pre2) ->
  prompt = pre3 ++ description_literal ++ post3 ->
  no_match_before (Regex.quoted_at Regex.description_key) prompt
    (String.length pre3) ->
  contains (simulateLLMCall prompt) "octo/demo"
  /\ contains (simulateLLMCall prompt) "42"
  /\ contains (simulateLLMCall prompt) "a demo repo".
Proof.
  intros E1 N1 E2 N2 E3 N3. unfold simulateLLMCall.
  destruct (stargazers_at_literal post2) as [more Hstars].
  replace (Regex.search (Regex.quoted_at Regex.full_name_key) prompt)
    with (Some "octo/demo").
  2:{ symmetry. rewrite E1 in N1 |- *.
      apply search_at; [exact N1 | apply full_name_at_literal]. }
  replace (Regex.search (Regex.digits_at Regex.stargazers_key) prompt)
    with (Some ("42" ++ more)).
  2:{ symmetry. rewrite E2 in N2 |- *.
      apply search_at; [exact N2 | exact Hstars]. }
  replace (Regex.search (Regex.quoted_at Regex.description_key) prompt)
    with (Some "a demo repo").
  2:{ symmetry. rewrite E3 in N3 |- *.
      apply search_at; [exact N3 | apply description_at_literal]. }
  cbn [or_default].
  destruct (response_contains "octo/demo"
              (relevantContent_of (question_of prompt)
                 (readmeSection_of prompt))
              ("42" ++ more) "a demo repo"
              (negb (relevantContent_of (question_of prompt)
                       (readmeSection_of prompt) =? "")%string))
    as (Hn & Hs & Hd).
  split; [exact Hn|]. split; [|exact Hd].
  apply (contains_trans _ _ _ Hs). exists "", more. reflexivity.
Qed.

Lemma no_match_beforeb_true (at_start : string -> option string)
    (prompt : string) (n : nat) :
  no_match_beforeb at_start prompt n = true ->
  no_match_before at_start prompt n.
Proof.
  unfold no_match_beforeb. rewrite forallb_forall. intros H i Hi.
  specialize (H i). rewrite in_seq in H.
  destruct (at_start (JS.drop i prompt)); [|reflexivity].
  discriminate H. lia.
Qed.

Lemma first_literals_in_response_witness :
  contains (simulateLLMCall literal_prompt) "octo/demo"
  /\ contains (simulateLLMCall literal_prompt) "42"
  /\ contains (simulateLLMCall literal_prompt) "a demo repo".
Proof.
  apply (first_literals_in_response literal_prompt
           (prompt_intro "hello" ++ "{")
           (", " ++ stargazers_literal ++ ", " ++ description_literal ++ "}")
           (prompt_intro "hello" ++ "{" ++ full_name_literal ++ ", ")
           (", " ++ description_literal ++ "}")
           (prompt_intro "hello" ++ "{" ++ full_name_literal ++ ", "
            ++ stargazers_literal ++ ", ")
           "}");
    try (vm_compute; reflexivity);
    apply no_match_beforeb_true; vm_compute; reflexivity.
Defined.

(** ** The request handler: validation *)

Lemma invalid_query_condition (query : Json.value) :
  missing_empty_or_not_string query ->
  negb (Json.truthy query) || negb (Route.is_string query) = true.
Proof.
  intros [-> | [-> | H]]; try reflexivity.
  destruct query as [[]|]; try (rewrite orb_true_r; reflexivity);
    try reflexivity.
  now elim (H s).
Qed.




(** ** The cached components *)

Lemma count_initialize_app (tr1 tr2 : list Event) :
  count_initialize (tr1 ++ tr2)
  = (count_initialize tr1 + count_initialize tr2)%nat.
Proof.
  induction tr1 as [|e tr1 IH]; simpl; [reflexivity|].
  destruct e; simpl; now rewrite IH.
Qed.

Lemma steps_trans (env : Env) (st1 st2 st3 : State) :
  steps env st1 st2 -> steps env st2 st3 -> steps env st1 st3.
Proof.
  induction 1 as [|s1 s2 s3 H12 _ IH]; intros H; [exact H|].
  eapply steps_cons; [exact H12 | exact (IH H)].
Qed.

Lemma steps_one (env : Env) (st1 st2 : State) :
  step env st1 st2 -> steps env st1 st2.
Proof. intros H. eapply steps_cons; [exact H | apply steps_refl]. Qed.

(** [initializeMastra] is called by a step only when the cache is [null],
    and the call leaves its pending promise in the cache. *)
Lemma step_initialize (env : Env) (st st' : State) :
  step env st st' ->
  count_initialize (trace st') = count_initialize (trace st)
  \/ (mastraPromise st = None
      /\ mastraPromise st' = Some Pending
      /\ count_initialize (trace st') = S (count_initialize (trace st))).
Proof.
  intros H; destruct H as [st | st Hp | st o r | st url | st c q].
  - destruct (mastraPromise st) eqn:E; [left; reflexivity|].
    right. cbn. rewrite count_initialize_app. cbn. repeat split; lia.
  - left. unfold Route.settle.
    destruct (initialize_reply env (trace st)); reflexivity.
  - left. unfold Route.set_repository.
    destruct (mastraPromise st) as [[]|]; reflexivity.
  - left. unfold fetch.
    destruct (fetch_reply env (trace st) url); cbn;
      rewrite count_initialize_app; cbn; lia.
  - left. unfold Route.generate, bind, Route.read_context.
    destruct (mastraPromise st) as [[]|]; cbn;
      destruct (generate_reply env _ _ _ _); cbn;
      rewrite count_initialize_app; cbn; lia.
Qed.

(** Once the components are there, a step keeps their agent and does not
    call [initializeMastra]. *)
Lemma step_fulfilled (env : Env) (st st' : State) (a : Agent) :
  step env st st' ->
  agent_of (mastraPromise st) = Some a ->
  agent_of (mastraPromise st') = Some a
  /\ count_initialize (trace st') = count_initialize (trace st).
Proof.
  intros H Ha; destruct H as [st | st Hp | st o r | st url | st c q].
  - destruct (mastraPromise st) eqn:E; [|discriminate Ha].
    cbn. rewrite E. split; [exact Ha | reflexivity].
  - rewrite Hp in Ha. discriminate Ha.
  - unfold Route.set_repository.
    destruct (mastraPromise st) as [[|c]|]; try discriminate Ha.
    cbn in *. split; [exact Ha | reflexivity].
  - unfold fetch. destruct (fetch_reply env (trace st) url); cbn;
      rewrite count_initialize_app; cbn; split; try exact Ha; lia.
  - unfold Route.generate, bind, Route.read_context.
    destruct (mastraPromise st) as [[|c']|] eqn:E; try discriminate Ha;
      cbn; destruct (generate_reply env _ _ _ _); cbn; rewrite E;
      rewrite count_initialize_app; cbn; split; try exact Ha; lia.
Qed.

Lemma steps_fulfilled (env : Env) (st st' : State) (a : Agent) :
  steps env st st' ->
  agent_of (mastraPromise st) = Some a ->
  agent_of (mastraPromise st') = Some a
  /\ count_initialize (trace st') = count_initialize (trace st).
Proof.
  induction 1 as [|s1 s2 s3 H12 _ IH]; intros Ha; [now split|].
  destruct (step_fulfilled env _ _ a H12 Ha) as [Ha2 Hc2].
  destruct (IH Ha2) as [Ha3 Hc3]. split; [exact Ha3 | congruence].
Qed.

(** *** Every operation of the handler is made of steps *)

Lemma stepwise_ret (env : Env) {A} (a : A) : stepwise env (ret a).
Proof. intros st. apply steps_refl. Qed.

Lemma stepwise_throw (env : Env) {A} (e : string) :
  stepwise env (@throw A e).
Proof. intros st. apply steps_refl. Qed.

Lemma stepwise_bind (env : Env) {A B} (m : M A) (k : A -> M B) :
  stepwise env m -> (forall a, stepwise env (k a)) ->
  stepwise env (bind m k).
Proof.
  intros Hm Hk st. unfold bind. specialize (Hm st).
  destruct (m st) as [[a|e] st1]; cbn in *; [|exact Hm].
  eapply steps_trans; [exact Hm | apply Hk].
Qed.

Lemma stepwise_try_catch (env : Env) {A} (m : M A) (h : string -> M A) :
  stepwise env m -> (forall e, stepwise env (h e)) ->
  stepwise env (try_catch m h).
Proof.
  intros Hm Hh st. unfold try_catch. specialize (Hm st).
  destruct (m st) as [[a|e] st1]; cbn in *; [exact Hm|].
  eapply steps_trans; [exact Hm | apply Hh].
Qed.

Lemma stepwise_fetch (env : Env) (url : string) : stepwise env (fetch env url).
Proof. intros st. apply steps_one, step_fetch. Qed.

Lemma stepwise_response_json (env : Env) (r : HttpResponse) :
  stepwise env (response_json r).
Proof.
  unfold response_json. destruct (body r);
    [apply stepwise_ret | apply stepwise_throw].
Qed.

Lemma stepwise_generate (env : Env) (c : MastraComponents) (q : string) :
  stepwise env (Route.generate env c q).
Proof. intros st. apply steps_one, step_generate. Qed.

Lemma stepwise_set_repository (env : Env) (o r : json) :
  stepwise env (Route.set_repository o r).
Proof. intros st. apply steps_one, step_set. Qed.

Lemma stepwise_getMastraComponents (env : Env) :
  stepwise env (Route.getMastraComponents env).
Proof.
  intros st. unfold Route.getMastraComponents, bind, Route.get_promise.
  cbn [fst snd].
  pose proof (step_call env st) as Hcall.
  destruct (mastraPromise st) as [p|] eqn:E.
  - cbn in *. unfold Route.await_promise, bind, Route.get_promise.
    rewrite E. destruct p; cbn; [|apply steps_refl].
    apply steps_one, step_settle, E.
  - cbn in *. eapply steps_cons; [exact Hcall|].
    apply steps_one.
    apply (step_settle env
             (mkState (Some Pending) (trace st ++ [EInitializeMastra]))
             eq_refl).
Qed.

Ltac stepwise_tac :=
  repeat match goal with
         | |- stepwise _ (bind _ _) => apply stepwise_bind; [|intros ?]
         | |- stepwise _ (try_catch _ _) =>
             apply stepwise_try_catch; [|intros ?]
         | |- stepwise _ (ret _) => apply stepwise_ret
         | |- stepwise _ (throw _) => apply stepwise_throw
         | |- stepwise _ (fetch _ _) => apply stepwise_fetch
         | |- stepwise _ (response_json _) => apply stepwise_response_json
         | |- stepwise _ (Route.generate _ _ _) => apply stepwise_generate
         | |- stepwise _ (Route.set_repository _ _) =>
             apply stepwise_set_repository
         | |- stepwise _ (Route.getMastraComponents _) =>
             apply stepwise_getMastraComponents
         | |- stepwise _ (if ?b then _ else _) => destruct b
         | |- stepwise _ (match ?x with _ => _ end) => destruct x
         | |- stepwise _ _ => progress cbv zeta
         end.

Lemma stepwise_fallbackProcessing (env : Env) (query : string)
    (owner repo : Json.value) :
  stepwise env (Route.fallbackProcessing env query owner repo).
Proof.
  unfold Route.fallbackProcessing, Route.executeGitHubTools,
    Route.generateLLMResponse, Route.fetchRepositoryMetadata,
    Route.fetchRepositoryReadme, Route.searchRepositoryContents,
    Route.fetchRepositoryStructure.
  stepwise_tac.
Qed.

Lemma stepwise_POST (env : Env) (request_body : option json) :
  stepwise env (Route.POST env request_body).
Proof.
  unfold Route.POST.
  repeat match goal with
         | |- stepwise _ (Route.fallbackProcessing _ _ _ _) =>
             apply stepwise_fallbackProcessing
         | _ => progress stepwise_tac
         end.
Qed.

Lemma steps_serve (env : Env) (bodies : list (option json)) (st : State) :
  steps env st (snd (serve env bodies st)).
Proof.
  revert st; induction bodies as [|b bodies IH]; intros st; cbn.
  - apply steps_refl.
  - pose proof (stepwise_POST env b st) as H1.
    destruct (Route.POST env b st) as [r st1]. cbn in H1.
    specialize (IH st1). destruct (serve env bodies st1) as [rs st2].
    cbn in *. eapply steps_trans; eassumption.
Qed.

(** *** The fallback pipeline does not touch the cache *)

Lemma cache_blind_ret {A} (a : A) : cache_blind (ret a).
Proof. intros tr. exists (Ok a), []. intros p. now rewrite app_nil_r. Qed.

Lemma cache_blind_throw {A} (e : string) : cache_blind (@throw A e).
Proof. intros tr. exists (Thrown e), []. intros p. now rewrite app_nil_r. Qed.

Lemma cache_blind_bind {A B} (m : M A) (k : A -> M B) :
  cache_blind m -> (forall a, cache_blind (k a)) -> cache_blind (bind m k).
Proof.
  intros Hm Hk tr. destruct (Hm tr) as ([a|e] & evs & H).
  - destruct (Hk a (tr ++ evs)%list) as (r & evs' & H').
    exists r, (evs ++ evs')%list. intros p. unfold bind.
    rewrite H, H'. now rewrite app_assoc.
  - exists (Thrown e), evs. intros p. unfold bind. now rewrite H.
Qed.

Lemma cache_blind_try_catch {A} (m : M A) (h : string -> M A) :
  cache_blind m -> (forall e, cache_blind (h e)) ->
  cache_blind (try_catch m h).
Proof.
  intros Hm Hh tr. destruct (Hm tr) as ([a|e] & evs & H).
  - exists (Ok a), evs. intros p. unfold try_catch. now rewrite H.
  - destruct (Hh e (tr ++ evs)%list) as (r & evs' & H').
    exists r, (evs ++ evs')%list. intros p. unfold try_catch.
    rewrite H, H'. now rewrite app_assoc.
Qed.

Lemma cache_blind_fetch (env : Env) (url : string) :
  cache_blind (fetch env url).
Proof.
  intros tr. unfold fetch. cbn [trace mastraPromise].
  destruct (fetch_reply env tr url) as [|r]; eexists _, _; intros p;
    reflexivity.
Qed.

Lemma cache_blind_response_json (r : HttpResponse) :
  cache_blind (response_json r).
Proof.
  unfold response_json. destruct (body r);
    [apply cache_blind_ret | apply cache_blind_throw].
Qed.

Ltac cache_blind_tac :=
  repeat match goal with
         | |- cache_blind (bind _ _) => apply cache_blind_bind; [|intros ?]
         | |- cache_blind (try_catch _ _) =>
             apply cache_blind_try_catch; [|intros ?]
         | |- cache_blind (ret _) => apply cache_blind_ret
         | |- cache_blind (throw _) => apply cache_blind_throw
         | |- cache_blind (fetch _ _) => apply cache_blind_fetch
         | |- cache_blind (response_json _) => apply cache_blind_response_json
         | |- cache_blind (if ?b then _ else _) => destruct b
         | |- cache_blind (match ?x with _ => _ end) => destruct x
         | |- cache_blind _ => progress cbv zeta
         end.

(** The fallback pipeline always answers, and what it answers and fetches
    depends on the request and on the trace alone. *)
Lemma fallbackProcessing_request_local (env : Env) (query : string)
    (owner repo : Json.value) (tr : list Event) :
  exists response evs,
    forall p,
      Route.fallbackProcessing env query owner repo (mkState p tr)
      = (Ok response, mkState p (tr ++ evs)).
Proof.
  assert (H : cache_blind (Route.fallbackProcessing env query owner repo)).
  { unfold Route.fallbackProcessing, Route.executeGitHubTools,
      Route.generateLLMResponse, Route.fetchRepositoryMetadata,
      Route.fetchRepositoryReadme, Route.searchRepositoryContents,
      Route.fetchRepositoryStructure.
    cache_blind_tac. }
  destruct (H tr) as ([response|e] & evs & Heq).
  - exists response, evs. exact Heq.
  - exfalso. specialize (Heq None). revert Heq.
    unfold Route.fallbackProcessing, try_catch, ret.
    destruct (bind _ _ _) as [[a|e'] st1]; discriminate.
Qed.

(** *** Equations of the monad *)

Lemma bind_ok {A B} (m : M A) (k : A -> M B) (st st' : State) (a : A) :
  m st = (Ok a, st') -> bind m k st = k a st'.
Proof. intros H. unfold bind. now rewrite H. Qed.

Lemma bind_thrown {A B} (m : M A) (k : A -> M B) (st st' : State)
    (e : string) :
  m st = (Thrown e, st') -> bind m k st = (Thrown e, st').
Proof. intros H. unfold bind. now rewrite H. Qed.

Lemma try_catch_ok {A} (m : M A) (h : string -> M A) (st st' : State)
    (a : A) :
  m st = (Ok a, st') -> try_catch m h st = (Ok a, st').
Proof. intros H. unfold try_catch. now rewrite H. Qed.

Lemma try_catch_thrown {A} (m : M A) (h : string -> M A) (st st' : State)
    (e : string) :
  m st = (Thrown e, st') -> try_catch m h st = h e st'.
Proof. intros H. unfold try_catch. now rewrite H. Qed.

Lemma getMastraComponents_failure (env : Env) (tr : list Event) :
  initialize_reply env (tr ++ [EInitializeMastra]) = None ->
  Route.getMastraComponents env (mkState None tr)
  = (Thrown "Error: initializeMastra failed",
     mkState None (tr ++ [EInitializeMastra])).
Proof.
  intros H.
  unfold Route.getMastraComponents, Route.get_promise, bind,
    Route.start_initialization, emit, Route.set_promise, Route.await_promise,
    Route.settle; cbn.
  now rewrite H.
Qed.

Lemma getMastraComponents_success (env : Env) (tr : list Event) (a : Agent) :
  initialize_reply env (tr ++ [EInitializeMastra]) = Some a ->
  Route.getMastraComponents env (mkState None tr)
  = (Ok (mkComponents a default_context),
     mkState (Some (Fulfilled (mkComponents a default_context)))
       (tr ++ [EInitializeMastra])).
Proof.
  intros H.
  unfold Route.getMastraComponents, Route.get_promise, bind,
    Route.start_initialization, emit, Route.set_promise, Route.await_promise,
    Route.settle; cbn.
  now rewrite H.
Qed.

(** C4.  The repository of a request is not local to it: [POST] writes
    [owner] and [repo] into the runtime context of the cached components,
    which every request shares.  The request with the query alone has the
    agent called for the default repository when it comes first, and for the
    repository a/b when it comes after a request that named a/b. *)
Lemma repository_carried_across_requests :
  last_generate
    (trace (snd (serve env_ok [Some (body_of "q" None None)] initial_state)))
  = Some default_context
  /\ last_generate
       (trace (snd (serve env_ok
                      [Some (body_of "q" (Some "a") (Some "b"));
                       Some (body_of "q" None None)] initial_state)))
     = Some (mkContext (JStr "a") (JStr "b"))
  /\ default_context <> mkContext (JStr "a") (JStr "b").
Proof.
  split; [vm_compute; reflexivity|]. split; [vm_compute; reflexivity|].
  discriminate.
Qed.

(** A request can even have the agent called for the repository of another
    request that is served in between: the first request writes a/b and
    probes the completion service, a second request writes c/d, and the
    first request then calls the agent, which is handed c/d. *)
Lemma interleaved_request_uses_other_repository :
  let c0 := mkComponents 0%nat default_context in
  let st0 := mkState (Some (Fulfilled c0)) [] in
  let st1 := snd (Route.set_repository (JStr "a") (JStr "b") st0) in
  let st2 := snd (fetch env_ok ollama_version st1) in
  let st3 := snd (Route.set_repository (JStr "c") (JStr "d") st2) in
  let st4 := snd (Route.generate env_ok c0 "q" st3) in
  steps env_ok st0 st4
  /\ last_generate (trace st4) = Some (mkContext (JStr "c") (JStr "d")).
Proof.
  intros c0 st0 st1 st2 st3 st4. split; [|vm_compute; reflexivity].
  apply (steps_cons env_ok st0 st1); [apply step_set|].
  apply (steps_cons env_ok st1 st2); [apply step_fetch|].
  apply (steps_cons env_ok st2 st3); [apply step_set|].
  apply (steps_cons env_ok st3 st4); [apply step_generate|].
  apply steps_refl.
Qed.

(** X19.  The cached components are constructed at most once and reused:
    [initializeMastra] is called only while the cache is [null]; once the
    components are there every later step of any interleaving and every
    later request keeps the same agent and never calls it again; a
    construction that fails leaves the cache [null], one that succeeds
    leaves the components, and cached components are handed out as they
    are.  The fallback pipeline neither reads nor writes the cache. *)
Theorem components_constructed_once (env : Env) :
  (forall st st',
     step env st st' ->
     count_initialize (trace st') = count_initialize (trace st)
     \/ (mastraPromise st = None
         /\ mastraPromise st' = Some Pending
         /\ count_initialize (trace st') = S (count_initialize (trace st))))
  /\ (forall st st' a,
        steps env st st' ->
        agent_of (mastraPromise st) = Some a ->
        agent_of (mastraPromise st') = Some a
        /\ count_initialize (trace st') = count_initialize (trace st))
  /\ (forall bodies st a,
        agent_of (mastraPromise st) = Some a ->
        agent_of (mastraPromise (snd (serve env bodies st))) = Some a
        /\ count_initialize (trace (snd (serve env bodies st)))
           = count_initialize (trace st))
  /\ (forall tr,
        initialize_reply env (tr ++ [EInitializeMastra]) = None ->
        Route.getMastraComponents env (mkState None tr)
        = (Thrown "Error: initializeMastra failed",
           mkState None (tr ++ [EInitializeMastra])))
  /\ (forall tr a,
        initialize_reply env (tr ++ [EInitializeMastra]) = Some a ->
        Route.getMastraComponents env (mkState None tr)
        = (Ok (mkComponents a default_context),
           mkState (Some (Fulfilled (mkComponents a default_context)))
             (tr ++ [EInitializeMastra])))
  /\ (forall c tr,
        Route.getMastraComponents env (mkState (Some (Fulfilled c)) tr)
        = (Ok c, mkState (Some (Fulfilled c)) tr))
  /\ (forall query owner repo tr,
        exists response evs,
          forall p,
            Route.fallbackProcessing env query owner repo (mkState p tr)
            = (Ok response, mkState p (tr ++ evs))).
Proof.
  split; [apply step_initialize|].
  split; [apply steps_fulfilled|].
  split; [intros bodies st a; apply (steps_fulfilled env), steps_serve|].
  split; [apply getMastraComponents_failure|].
  split; [apply getMastraComponents_success|].
  split; [reflexivity|].
  apply fallbackProcessing_request_local.
Qed.

(** The agent tool for the metadata never raises. *)
Lemma agent_fetchRepositoryMetadata_returns (env : Env)
    (context : AgentTools.ToolContext) (rc : RuntimeContext) (st : State) :
  exists v,
    fst (AgentTools.fetchRepositoryMetadata env context rc st) = Ok v.
Proof. unfold AgentTools.fetchRepositoryMetadata. run_fetcher; eauto. Qed.

(** A content of 2001 code units is cut to 2000 and marked. *)
Example long_content_truncated :
  limit_content (repeat_string "a" 2001)
  = repeat_string "a" 2000 ++ "... (truncated)".
Proof. vm_compute. reflexivity. Qed.

(** * Further properties *)

(** ** The size of the prompt *)

Lemma limit_content_length (c : string) :
  (String.length (limit_content c) <= 2015)%nat.
Proof.
  destruct (Z.leb_spec (JS.len c) 2000) as [H|H].
  - rewrite limit_content_short by exact H. unfold JS.len in H. lia.
  - rewrite limit_content_long by lia. rewrite length_append.
    rewrite length_take by (unfold JS.len in H; lia).
    change (String.length truncated_suffix) with 15%nat. lia.
Qed.

(** X1.  The prompt is bounded by the length of the query, the count of the
    results and the lengths of their names, whatever the lengths of their
    contents: 439 code units of fixed text, the query, and for each result
    its name and at most 2026 more. *)
Theorem prompt_length_bounded (query : string) (results : list ToolResult) :
  (String.length (formatToolResultsForLLM query results)
   <= 439 + String.length query
      + fold_right (fun r n => String.length (name r) + 2026 + n) 0 results)%nat.
Proof.
  unfold formatToolResultsForLLM. rewrite fold_add_result.
  rewrite !length_append.
  change (String.length prompt_closing) with 273%nat.
  assert (Hintro : String.length (prompt_intro query)
                   = (166 + String.length query)%nat).
  { unfold prompt_intro. rewrite !length_append. cbn. lia. }
  rewrite Hintro.
  assert (Hblocks :
    (String.length
       (fold_right
          (fun r rest =>
             marker (name r) ++ JS.nl ++ limit_content (content r) ++ JS.nl
             ++ JS.nl ++ rest) "" results)
     <= fold_right (fun r n => String.length (name r) + 2026 + n) 0 results)%nat).
  { induction results as [|r results IH]; cbn [fold_right]; [cbn; lia|].
    rewrite !length_append.
    replace (String.length (marker (name r)))
      with (8 + String.length (name r))%nat
      by (unfold marker; rewrite !length_append; cbn; lia).
    pose proof (limit_content_length (content r)).
    change (String.length JS.nl) with 1%nat. lia. }
  lia.
Qed.

(** ** The question read back from the prompt *)

Lemma quote_free_cons (c : ascii) (t : string) :
  quote_free (String c t) -> Regex.not_quote c = true /\ quote_free t.
Proof.
  intros H. split.
  - unfold Regex.not_quote. apply negb_true_iff, Z.eqb_neq. intros E.
    apply H. exists "", t. cbn. f_equal.
    unfold JS.code in E. rewrite <- (ascii_nat_embedding c).
    replace (nat_of_ascii c) with 34%nat by lia. reflexivity.
  - intros C. apply H. apply (contains_append_l (String c "")) in C. exact C.
Qed.

Lemma while_quote_free (s rest : string) :
  quote_free s ->
  JS.take_while Regex.not_quote (s ++ JS.dq ++ rest) = s
  /\ JS.drop_while Regex.not_quote (s ++ JS.dq ++ rest) = JS.dq ++ rest.
Proof.
  induction s as [|c s IH]; intros H.
  - split; reflexivity.
  - apply quote_free_cons in H as [Hc Hs].
    cbn [append JS.take_while JS.drop_while]. rewrite Hc.
    destruct (IH Hs) as [-> ->]. split; reflexivity.
Qed.

Lemma quoted_literal (s rest : string) :
  quote_free s -> s <> "" ->
  Regex.quoted (JS.dq ++ s ++ JS.dq ++ rest) = Some s.
Proof.
  intros H Hne. unfold Regex.quoted.
  change (JS.dq ++ s ++ JS.dq ++ rest)
    with (String "034"%char (s ++ JS.dq ++ rest)).
  change (JS.code "034" =? 34) with true. cbv iota.
  destruct (while_quote_free s rest H) as [-> ->].
  destruct s; [now elim Hne | reflexivity].
Qed.

(** X2.  The simulated completion reads back, lower-cased, the question the
    synthesizer wrote into the prompt, whatever the tool results hold,
    provided the question is not empty and has no double quote. *)
Theorem question_read_back (query : string) (results : list ToolResult) :
  query <> "" ->
  quote_free query ->
  question_of (formatToolResultsForLLM query results) = JS.toLowerCase query.
Proof.
  intros Hne Hq. unfold question_of, formatToolResultsForLLM.
  rewrite fold_add_result. unfold prompt_intro. rewrite !append_assoc.
  set (pre := "You are an AI assistant that answers questions about GitHub repositories. ").
  match goal with
  | |- context [JS.dq ++ query ++ JS.dq ++ ?t] => generalize t
  end.
  intros tail. rewrite <- (append_assoc pre JS.nl).
  rewrite (search_at Regex.question_at (pre ++ JS.nl) _ query);
    [reflexivity| |].
  - apply no_match_beforeb_true. vm_compute. reflexivity.
  - unfold Regex.question_at. rewrite prefix_append, drop_append.
    now apply quoted_literal.
Qed.

Lemma question_read_back_witness :
  question_of (formatToolResultsForLLM "How do I RUN this?" [])
  = "how do i run this?".
Proof.
  apply (question_read_back "How do I RUN this?" []); [discriminate|].
  apply not_includes_not_contains. vm_compute. reflexivity.
Defined.

(** ** The alphabet of the search string *)

Lemma all_chars_append (p : ascii -> bool) (a b : string) :
  all_chars p (a ++ b) = all_chars p a && all_chars p b.
Proof.
  induction a as [|c a IH]; cbn; [reflexivity|].
  now rewrite IH, andb_assoc.
Qed.

Lemma all_chars_weaken (p q : ascii -> bool) (s : string) :
  (forall c, p c = true -> q c = true) ->
  all_chars p s = true -> all_chars q s = true.
Proof.
  intros H; induction s as [|c s IH]; cbn; [reflexivity|].
  rewrite !andb_true_iff. intros [Hc Hs]. split; [now apply H | now apply IH].
Qed.

(** What is left of a lower-cased code unit by the filter is white space or
    a token character. *)
Lemma kept_lower_char (c : ascii) :
  JS.is_word (JS.lower_char c) || JS.is_space (JS.lower_char c) = true ->
  JS.is_space (JS.lower_char c) || token_char (JS.lower_char c) = true.
Proof.
  destruct c as [[] [] [] [] [] [] [] []]; cbv; intros H;
    first [reflexivity | discriminate H].
Qed.

Lemma filtered_lower_chars (query : string) :
  all_chars (fun c => JS.is_space c || token_char c)
    (JS.filter_chars (fun c => JS.is_word c || JS.is_space c)
       (JS.toLowerCase query)) = true.
Proof.
  induction query as [|c query IH]; cbn [JS.toLowerCase JS.filter_chars];
    [reflexivity|].
  destruct (JS.is_word (JS.lower_char c) || JS.is_space (JS.lower_char c))
    eqn:E; [|exact IH].
  cbn [all_chars]. rewrite IH, andb_true_r. now apply kept_lower_char.
Qed.

Lemma split_ws_go_token_chars (s cur : string) (insep : bool) :
  all_chars (fun c => JS.is_space c || token_char c) s = true ->
  all_chars token_char cur = true ->
  Forall (fun t => all_chars token_char t = true) (JS.split_ws_go s cur insep).
Proof.
  revert cur insep; induction s as [|c s IH]; intros cur insep Hs Hcur;
    cbn [JS.split_ws_go].
  - constructor; [exact Hcur | constructor].
  - cbn [all_chars] in Hs. apply andb_true_iff in Hs as [Hc Hs].
    destruct (JS.is_space c) eqn:E.
    + destruct insep; [now apply IH|].
      constructor; [exact Hcur | now apply IH].
    + apply IH; [exact Hs|]. rewrite all_chars_append, Hcur.
      cbn. cbn in Hc. now rewrite Hc.
Qed.

Lemma Forall_firstn {A} (P : A -> Prop) (n : nat) (l : list A) :
  Forall P l -> Forall P (firstn n l).
Proof.
  revert l; induction n as [|n IH]; intros [|x l] H; cbn; auto.
  inversion H; subst. constructor; auto.
Qed.

Lemma Forall_filter_both {A} (P : A -> Prop) (f : A -> bool) (l : list A) :
  Forall P l -> Forall (fun x => P x /\ f x = true) (filter f l).
Proof.
  induction 1 as [|x l Hx _ IH]; cbn; [constructor|].
  destruct (f x) eqn:E; [constructor; auto | exact IH].
Qed.

Lemma join_search_chars (parts : list string) :
  Forall (fun t => all_chars token_char t = true) parts ->
  all_chars search_char (JS.join "+" parts) = true.
Proof.
  assert (Htok : forall t, all_chars token_char t = true ->
                           all_chars search_char t = true).
  { intros t. apply all_chars_weaken. intros c Hc. unfold search_char.
    now rewrite Hc. }
  induction 1 as [|t parts Ht Hparts IH]; [reflexivity|].
  destruct parts as [|u parts]; [now apply Htok|].
  change (JS.join "+" (t :: u :: parts))
    with (t ++ "+" ++ JS.join "+" (u :: parts)).
  rewrite !all_chars_append, (Htok t Ht), IH. reflexivity.
Qed.

Lemma join_length_head (sep t : string) (parts : list string) :
  (String.length t <= String.length (JS.join sep (t :: parts)))%nat.
Proof.
  destruct parts as [|u parts]; [cbn; lia|].
  change (JS.join sep (t :: u :: parts))
    with (t ++ sep ++ JS.join sep (u :: parts)).
  rewrite length_append. lia.
Qed.

(** X3.  Whatever the query, the search string put into the URL of the code
    search is made of lower-case ASCII letters, digits, underscores and
    plus signs alone, and is longer than 3 code units. *)
Theorem search_string_alphabet (query : string) :
  all_chars search_char (searchQuery_of query) = true
  /\ (3 < String.length (searchQuery_of query))%nat.
Proof.
  unfold searchQuery_of, searchTerms_of.
  set (pieces := JS.split_ws _).
  assert (Hpieces : Forall (fun t => all_chars token_char t = true) pieces).
  { apply split_ws_go_token_chars; [apply filtered_lower_chars | reflexivity]. }
  apply (Forall_filter_both _ (fun term => JS.len term >? 3)) in Hpieces.
  apply (Forall_firstn _ 3) in Hpieces.
  destruct (firstn 3 (filter _ pieces)) as [|t terms] eqn:E.
  - split; [reflexivity | cbn; lia].
  - replace (Z.of_nat (List.length (t :: terms)) >? 0) with true
      by (symmetry; apply Z.gtb_lt; cbn [List.length]; lia).
    split.
    + apply join_search_chars.
      eapply Forall_impl; [|exact Hpieces]. now intros a [Ha _].
    + inversion Hpieces as [|? ? [_ Hlen] _]; subst.
      pose proof (join_length_head "+" t terms).
      apply Z.gtb_lt in Hlen. unfold JS.len in Hlen. lia.
Qed.

(** ** The fallback fetchers and the fallback pipeline *)

(** X4.  The fallback README fetcher answers its first sentinel whenever the
    request fails on the network, is answered outside 200..299 or with a
    body that does not parse, and whenever the content is no valid base64;
    its second sentinel when the answer has no content; and the decoded
    text otherwise. *)
Theorem readme_sentinels (env : Env) (repo : string) (st : State) :
  let url := "https://api.github.com/repos/" ++ repo ++ "/readme" in
  let answer := fst (Route.fetchRepositoryReadme env repo st) in
  (fetch_reply env (trace st) url = NetworkError ->
   answer = Ok "Could not fetch README content due to an error")
  /\ (forall r,
        fetch_reply env (trace st) url = Response r ->
        ok r = false \/ body r = None ->
        answer = Ok "Could not fetch README content due to an error")
  /\ (forall r data c,
        fetch_reply env (trace st) url = Response r ->
        ok r = true -> body r = Some data ->
        Json.get data "content" = Some c -> Json.truthy c = false ->
        answer = Ok "README content not available")
  /\ (forall r data s,
        fetch_reply env (trace st) url = Response r ->
        ok r = true -> body r = Some data ->
        Json.get data "content" = Some (Some (JStr s)) -> s <> "" ->
        answer
        = Ok (match Base64.atob
                      (JS.filter_chars
                         (fun ch => negb (JS.code ch =? 10)) s) with
              | Some text => text
              | None => "Could not fetch README content due to an error"
              end)).
Proof.
  intros url answer. subst answer.
  unfold Route.fetchRepositoryReadme, try_catch, bind, fetch, response_json.
  fold url. split; [|split; [|split]].
  - intros ->. reflexivity.
  - intros r -> [Hok | Hbody].
    + rewrite Hok. reflexivity.
    + destruct (ok r); cbn; [rewrite Hbody|]; reflexivity.
  - intros r data c -> Hok Hbody Hc Hfalsy. rewrite Hok. cbn.
    rewrite Hbody. cbn. rewrite Hc, Hfalsy. reflexivity.
  - intros r data s -> Hok Hbody Hc Hne. rewrite Hok. cbn.
    rewrite Hbody. cbn. rewrite Hc. cbn.
    apply String.eqb_neq in Hne. rewrite Hne. cbn.
    destruct (Base64.atob _); reflexivity.
Qed.

(** X5.  When the code search fails on the network, the fallback search
    fetcher returns the empty list at once: the contents listing is not
    asked for. *)
Theorem search_network_failure (env : Env) (repo query : string)
    (st : State) :
  let searchUrl :=
    "https://api.github.com/search/code?q=" ++ searchQuery_of query
    ++ "+repo:" ++ repo in
  fetch_reply env (trace st) searchUrl = NetworkError ->
  Route.searchRepositoryContents env repo query st
  = (Ok (JArr []), after st [EFetch searchUrl]).
Proof.
  intros searchUrl H.
  unfold Route.searchRepositoryContents, try_catch, bind, fetch.
  fold searchUrl. rewrite H. reflexivity.
Qed.

Lemma search_network_failure_witness :
  Route.searchRepositoryContents env_offline "octo/demo" "how do stars work"
    initial_state
  = (Ok (JArr []),
     after initial_state
       [EFetch "https://api.github.com/search/code?q=stars+work+repo:octo/demo"]).
Proof.
  exact (search_network_failure env_offline "octo/demo" "how do stars work"
           initial_state eq_refl).
Defined.

Lemma fallbackProcessing_outcome (env : Env) (query : string)
    (owner repo : Json.value) (st : State) :
  let repoIdentifier :=
    if Json.truthy owner && Json.truthy repo
    then Json.toString_value owner ++ "/" ++ Json.toString_value repo
    else default_repository in
  exists urls,
    snd (Route.fallbackProcessing env query owner repo st)
    = after st
        (map EFetch
           (("https://api.github.com/repos/" ++ repoIdentifier) :: urls))
    /\ match fst (Route.fetchRepositoryMetadata env repoIdentifier st) with
       | Thrown _ =>
           urls = []
           /\ fst (Route.fallbackProcessing env query owner repo st)
              = Ok (mkNext 500
                      (JObj [("error",
                              JStr "Failed to process request in fallback mode")]))
       | Ok metadata =>
           (3 <= List.length urls <= 4)%nat
           /\ exists readme search structure,
                fst (Route.fallbackProcessing env query owner repo st)
                = Ok (mkNext 200
                        (JObj [("response",
                                JStr (simulateLLMCall
                                        (formatToolResultsForLLM query
                                           (four_results
                                              (Json.stringify metadata)
                                              readme
                                              (Json.stringify search)
                                              (Json.stringify structure)))))]))
       end.
Proof.
  intros repoIdentifier.
  unfold Route.fallbackProcessing. fold repoIdentifier.
  pose proof (executeGitHubTools_outcome env repoIdentifier query st) as Hout.
  pose proof (fetchRepositoryMetadata_outcome env repoIdentifier st)
    as [Hst _].
  destruct (Route.fetchRepositoryMetadata env repoIdentifier st)
    as [[metadata|e] st1]; cbn [fst snd] in *.
  - destruct Hout as (readme & search & structure & again & Hexec & Hagain).
    rewrite (try_catch_ok _ _ st
               (after st
                  ([EFetch ("https://api.github.com/repos/" ++ repoIdentifier);
                    EFetch ("https://api.github.com/repos/" ++ repoIdentifier
                            ++ "/readme");
                    EFetch ("https://api.github.com/search/code?q="
                            ++ searchQuery_of query ++ "+repo:"
                            ++ repoIdentifier)]
                   ++ again
                   ++ [EFetch ("https://api.github.com/repos/"
                               ++ repoIdentifier ++ "/contents")]))
               (mkNext 200
                  (JObj [("response",
                          JStr (simulateLLMCall
                                  (formatToolResultsForLLM query
                                     (four_results (Json.stringify metadata)
                                        readme (Json.stringify search)
                                        (Json.stringify structure)))))]))).
    + destruct Hagain as [-> | ->].
      * eexists [_; _; _]. split; [reflexivity|]. split; [cbn; lia|].
        exists readme, search, structure. reflexivity.
      * eexists [_; _; _; _]. split; [reflexivity|]. split; [cbn; lia|].
        exists readme, search, structure. reflexivity.
    + rewrite (bind_ok _ _ _ _ _ Hexec). reflexivity.
  - rewrite (try_catch_thrown _ _ st st1 e).
    + subst st1. exists []. split; [reflexivity|]. split; reflexivity.
    + apply bind_thrown. exact Hout.
Qed.

(** What the orchestrator returns when the metadata fetcher returns: the
    four results are what the four fetchers return, each run in the state
    the one before left. *)
Lemma executeGitHubTools_results (env : Env) (repo query : string)
    (st st1 : State) (metadata : json) :
  Route.fetchRepositoryMetadata env repo st = (Ok metadata, st1) ->
  let readme_run := Route.fetchRepositoryReadme env repo st1 in
  let search_run :=
    Route.searchRepositoryContents env repo query (snd readme_run) in
  let structure_run :=
    Route.fetchRepositoryStructure env repo (snd search_run) in
  exists readme search structure,
    fst readme_run = Ok readme
    /\ fst search_run = Ok search
    /\ fst structure_run = Ok structure
    /\ Route.executeGitHubTools env repo query st
       = (Ok (four_results (Json.stringify metadata) readme
                (Json.stringify search) (Json.stringify structure)),
          snd structure_run).
Proof.
  intros Hmeta readme_run search_run structure_run.
  destruct (fetchRepositoryReadme_returns env repo st1) as [readme E1].
  assert (H1 : readme_run = (Ok readme, snd readme_run))
    by (unfold readme_run; rewrite E1; reflexivity).
  destruct (searchRepositoryContents_returns env repo query (snd readme_run))
    as (search & again & E2 & _).
  assert (H2 : search_run = (Ok search, snd search_run))
    by (unfold search_run; rewrite E2; reflexivity).
  destruct (fetchRepositoryStructure_returns env repo (snd search_run))
    as [structure E3].
  assert (H3 : structure_run = (Ok structure, snd structure_run))
    by (unfold structure_run; rewrite E3; reflexivity).
  exists readme, search, structure.
  split; [now rewrite H1|]. split; [now rewrite H2|].
  split; [now rewrite H3|].
  unfold Route.executeGitHubTools. apply try_catch_ok.
  rewrite (bind_ok _ _ _ _ _ Hmeta).
  rewrite (bind_ok _ _ _ _ _ H1).
  rewrite (bind_ok _ _ _ _ _ H2).
  rewrite (bind_ok _ _ _ _ _ H3).
  reflexivity.
Qed.

(** X6.  The fallback pipeline never raises.  It answers 500 exactly when
    the metadata fetcher raises; otherwise it answers 200 with the simulated
    completion of the prompt synthesized from the four results: the
    serialized metadata, the README text, the serialized search result and
    the serialized structure that the four fetchers return, run one after
    the other. *)
Theorem fallback_answer (env : Env) (query : string)
    (owner repo : Json.value) (st : State) :
  let repoIdentifier :=
    if Json.truthy owner && Json.truthy repo
    then Json.toString_value owner ++ "/" ++ Json.toString_value repo
    else default_repository in
  let metadata_run := Route.fetchRepositoryMetadata env repoIdentifier st in
  let readme_run :=
    Route.fetchRepositoryReadme env repoIdentifier (snd metadata_run) in
  let search_run :=
    Route.searchRepositoryContents env repoIdentifier query (snd readme_run) in
  let structure_run :=
    Route.fetchRepositoryStructure env repoIdentifier (snd search_run) in
  match fst metadata_run with
  | Thrown _ =>
      Route.fallbackProcessing env query owner repo st
      = (Ok (mkNext 500
               (JObj [("error",
                       JStr "Failed to process request in fallback mode")])),
         snd metadata_run)
  | Ok metadata =>
      exists readme search structure,
        fst readme_run = Ok readme
        /\ fst search_run = Ok search
        /\ fst structure_run = Ok structure
        /\ Route.fallbackProcessing env query owner repo st
           = (Ok (mkNext 200
                    (JObj [("response",
                            JStr (simulateLLMCall
                                    (formatToolResultsForLLM query
                                       (four_results
                                          (Json.stringify metadata) readme
                                          (Json.stringify search)
                                          (Json.stringify structure)))))])),
              snd structure_run)
  end.
Proof.
  intros repoIdentifier metadata_run readme_run search_run structure_run.
  unfold Route.fallbackProcessing. fold repoIdentifier.
  destruct metadata_run as [[metadata|e] st1] eqn:Hmeta;
    unfold metadata_run in Hmeta; cbn [fst snd] in *.
  - destruct (executeGitHubTools_results env repoIdentifier query st st1
                metadata Hmeta)
      as (readme & search & structure & H1 & H2 & H3 & Hexec).
    exists readme, search, structure.
    split; [exact H1|]. split; [exact H2|]. split; [exact H3|].
    apply try_catch_ok. rewrite (bind_ok _ _ _ _ _ Hexec). reflexivity.
  - pose proof (executeGitHubTools_outcome env repoIdentifier query st)
      as Hout.
    rewrite Hmeta in Hout.
    rewrite (try_catch_thrown _ _ st st1 e); [reflexivity|].
    apply bind_thrown. exact Hout.
Qed.

(** X7.  A request that does not name both an owner and a repository is
    served by the fallback pipeline for eddycjy/go-gin-example, whatever
    repository the cached context remembers: the first thing the pipeline
    does is to ask for the metadata of that repository. *)
Theorem fallback_default_repository (env : Env) (query : string)
    (owner repo : Json.value) (st : State) :
  Json.truthy owner && Json.truthy repo = false ->
  exists evs,
    snd (Route.fallbackProcessing env query owner repo st)
    = after st
        (EFetch "https://api.github.com/repos/eddycjy/go-gin-example" :: evs).
Proof.
  intros H.
  destruct (fallbackProcessing_outcome env query owner repo st)
    as (urls & Hst & _).
  rewrite H in Hst. exists (map EFetch urls). exact Hst.
Qed.

(** X17.  The fallback pipeline sends one request to GitHub when the
    metadata fetcher raises, and four or five when it returns: it never
    sends more than five requests, and sends nothing else to the outside. *)
Theorem fallback_request_count (env : Env) (query : string)
    (owner repo : Json.value) (st : State) :
  let repoIdentifier :=
    if Json.truthy owner && Json.truthy repo
    then Json.toString_value owner ++ "/" ++ Json.toString_value repo
    else default_repository in
  exists urls,
    snd (Route.fallbackProcessing env query owner repo st)
    = after st (map EFetch urls)
    /\ match fst (Route.fetchRepositoryMetadata env repoIdentifier st) with
       | Thrown _ => List.length urls = 1%nat
       | Ok _ => (4 <= List.length urls <= 5)%nat
       end.
Proof.
  intros repoIdentifier.
  destruct (fallbackProcessing_outcome env query owner repo st)
    as (urls & Hst & H).
  fold repoIdentifier in Hst, H.
  exists (("https://api.github.com/repos/" ++ repoIdentifier) :: urls).
  split; [exact Hst|].
  destruct (fst (Route.fetchRepositoryMetadata env repoIdentifier st)).
  - destruct H as [H _]. cbn [List.length]. lia.
  - destruct H as [-> _]. reflexivity.
Qed.

Lemma fallback_default_repository_witness :
  exists evs,
    snd (Route.fallbackProcessing env_ok "q" None None
           (mkState
              (Some (Fulfilled
                       (mkComponents 0%nat (mkContext (JStr "a") (JStr "b")))))
              []))
    = after
        (mkState
           (Some (Fulfilled
                    (mkComponents 0%nat (mkContext (JStr "a") (JStr "b")))))
           [])
        (EFetch "https://api.github.com/repos/eddycjy/go-gin-example" :: evs).
Proof. apply fallback_default_repository. reflexivity. Defined.

(** ** The request handler *)

Section Establishes.

Variable R : State -> State -> Prop.
Hypothesis R_refl : forall st, R st st.
Hypothesis R_trans : forall a b c, R a b -> R b c -> R a c.

Lemma establishes_ret {A} (P : A -> Prop) (a : A) :
  P a -> establishes R P (ret a).
Proof. intros H st. split; [apply R_refl | exact H]. Qed.

Lemma establishes_throw {A} (P : A -> Prop) (e : string) :
  establishes R P (@throw A e).
Proof. intros st. split; [apply R_refl | exact I]. Qed.

Lemma establishes_bind {A B} (Q : A -> Prop) (P : B -> Prop) (m : M A)
    (k : A -> M B) :
  establishes R Q m -> (forall a, Q a -> establishes R P (k a)) ->
  establishes R P (bind m k).
Proof.
  intros Hm Hk st. unfold bind. destruct (Hm st) as [HR HQ].
  destruct (m st) as [[a|e] st1]; cbn [fst snd] in *; [|split; auto].
  destruct (Hk a HQ st1) as [HR' HP].
  split; [eapply R_trans; eassumption | exact HP].
Qed.

Lemma establishes_try_catch {A} (P : A -> Prop) (m : M A)
    (h : string -> M A) :
  establishes R P m -> (forall e, establishes R P (h e)) ->
  establishes R P (try_catch m h).
Proof.
  intros Hm Hh st. unfold try_catch. destruct (Hm st) as [HR HP].
  destruct (m st) as [[a|e] st1]; cbn [fst snd] in *; [split; auto|].
  destruct (Hh e st1) as [HR' HP'].
  split; [eapply R_trans; eassumption | exact HP'].
Qed.

End Establishes.

Lemma any_state_refl (st : State) : any_state st st.
Proof. exact I. Qed.

Lemma any_state_trans (a b c : State) :
  any_state a b -> any_state b c -> any_state a c.
Proof. intros _ _. exact I. Qed.

Lemma establishes_any {A} (m : M A) : establishes any_state anything m.
Proof. intros st. split; [exact I|]. destruct (fst (m st)); exact I. Qed.

Lemma always_try_catch {A} (R : State -> State -> Prop) (P : A -> Prop)
    (m : M A) (h : string -> M A) :
  establishes R P m -> (forall e, always P (h e)) ->
  always P (try_catch m h).
Proof.
  intros Hm Hh st. unfold try_catch. destruct (Hm st) as [_ HP].
  destruct (m st) as [[a|e] st1]; cbn [fst] in *; [eauto|].
  apply Hh.
Qed.

Lemma always_establishes {A} (P : A -> Prop) (m : M A) :
  always P m -> establishes any_state P m.
Proof.
  intros H st. split; [exact I|]. destruct (H st) as (a & -> & Ha). exact Ha.
Qed.

Lemma always_fallbackProcessing (env : Env) (query : string)
    (owner repo : Json.value) :
  always not_rejected (Route.fallbackProcessing env query owner repo).
Proof.
  intros st.
  destruct (fallbackProcessing_outcome env query owner repo st)
    as (urls & _ & H).
  destruct (fst (Route.fetchRepositoryMetadata env _ st)).
  - destruct H as (_ & readme & search & structure & ->).
    eexists. split; [reflexivity|]. split; [|discriminate].
    left. eexists. reflexivity.
  - destruct H as [_ ->]. eexists. split; [reflexivity|].
    split; [|discriminate].
    right. eexists. split; [right|]; reflexivity.
Qed.

(** Once the query has passed the validation, the handler answers, and not
    with 400. *)
Lemma always_agent_flow (env : Env) (query : string)
    (owner repo : Json.value) :
  always not_rejected (agent_flow env query owner repo).
Proof.
  unfold agent_flow.
  apply (always_try_catch any_state);
    [|intros e; apply always_fallbackProcessing].
  apply (establishes_bind any_state any_state_trans anything);
    [apply establishes_any | intros c _].
  apply (establishes_bind any_state any_state_trans anything);
    [apply establishes_any | intros _ _].
  apply always_establishes, (always_try_catch any_state);
    [|intros e; apply always_fallbackProcessing].
  apply (establishes_bind any_state any_state_trans anything);
    [apply establishes_any | intros r _].
  destruct (negb (ok r)).
  - apply always_establishes, always_fallbackProcessing.
  - apply (establishes_bind any_state any_state_trans anything);
      [apply establishes_any | intros text _].
    apply (establishes_ret any_state any_state_refl).
    split; [|discriminate]. left. eexists. reflexivity.
Qed.

(** X8.  The handler never raises: whatever the body, the state and the
    answers from outside, it returns an answer, which is 200 with a response
    text, or 400 or 500 with an error text. *)
Theorem POST_always_answers (env : Env) (request_body : option json)
    (st : State) :
  exists r,
    fst (Route.POST env request_body st) = Ok r /\ well_formed_answer r.
Proof.
  assert (Hfailed : well_formed_answer Route.failed_request).
  { right. eexists. split; [right|]; reflexivity. }
  assert (Hinvalid : well_formed_answer Route.invalid_query).
  { right. eexists. split; [left|]; reflexivity. }
  unfold Route.POST, try_catch at 1, bind at 1.
  destruct request_body as [parsed|]; cbn [ret throw];
    [|eexists; split; [reflexivity | exact Hfailed]].
  destruct (Json.get parsed "query") as [query|];
    [|eexists; split; [reflexivity | exact Hfailed]].
  destruct (Json.get parsed "owner") as [owner|];
    [|eexists; split; [reflexivity | exact Hfailed]].
  destruct (Json.get parsed "repo") as [repo|];
    [|eexists; split; [reflexivity | exact Hfailed]].
  destruct (negb (Json.truthy query) || negb (Route.is_string query));
    [eexists; split; [reflexivity | exact Hinvalid]|].
  destruct (always_agent_flow env (Json.toString_value query) owner repo st)
    as (r & Hr & Hwf & _).
  match goal with
  | |- context [try_catch ?m ?h st] =>
      change (try_catch m h st)
        with (agent_flow env (Json.toString_value query) owner repo st)
  end.
  destruct (agent_flow _ _ _ _ st) as [[a|e] st1]; cbn [fst] in *;
    [|discriminate Hr].
  injection Hr as ->. exists r. split; [reflexivity | exact Hwf].
Qed.

(** A body with a valid query is served by [agent_flow]. *)
Lemma POST_valid (env : Env) (parsed : json) (q : string)
    (owner repo : Json.value) (st : State) :
  valid_query parsed q ->
  Json.get parsed "owner" = Some owner ->
  Json.get parsed "repo" = Some repo ->
  Route.POST env (Some parsed) st = agent_flow env q owner repo st.
Proof.
  intros [Hq Hne] Ho Hr.
  destruct (always_agent_flow env q owner repo st) as (r & Hflow & _).
  unfold Route.POST. unfold try_catch at 1. unfold bind at 1. cbn [ret].
  rewrite Hq, Ho, Hr.
  replace (negb (Json.truthy (Some (JStr q)))
           || negb (Route.is_string (Some (JStr q)))) with false
    by (cbn; apply String.eqb_neq in Hne; now rewrite Hne).
  cbn [Json.toString_value Json.toString].
  match goal with
  | |- context [try_catch ?m ?h st] =>
      change (try_catch m h st) with (agent_flow env q owner repo st)
  end.
  destruct (agent_flow env q owner repo st) as [[a|e] st1]; cbn [fst] in *;
    [reflexivity | discriminate Hflow].
Qed.

Lemma invalid_query_condition_inv (query : Json.value) :
  negb (Json.truthy query) || negb (Route.is_string query) = true ->
  missing_empty_or_not_string query.
Proof.
  destruct query as [[| | |s| |]|]; intros H;
    try (now left);
    try (right; right; intros s' E; discriminate E).
  right; left. cbn in H. rewrite orb_false_r, negb_involutive in H.
  apply String.eqb_eq in H. now subst.
Qed.

Lemma valid_query_condition (query : Json.value) :
  negb (Json.truthy query) || negb (Route.is_string query) = false ->
  exists q, query = Some (JStr q) /\ q <> "".
Proof.
  destruct query as [[| | |s| |]|]; intros H; try discriminate H;
    try (cbn in H; rewrite orb_true_r in H; discriminate H).
  exists s. split; [reflexivity|]. cbn in H.
  rewrite orb_false_r, negb_involutive in H. now apply String.eqb_neq.
Qed.

(** X9.  The handler answers 400 exactly for the bodies that parse to a
    value other than [null] whose query is missing, empty or not a string.
    A body that does not parse and the body [null] are answered 500 with the
    text "Failed to process request", and a body with a query that is a
    string and not empty is answered 200 or 500. *)
Theorem POST_rejects_exactly (env : Env) (request_body : option json)
    (st : State) :
  exists r,
    fst (Route.POST env request_body st) = Ok r
    /\ (http_status r = 400
        <-> exists parsed query,
              request_body = Some parsed
              /\ Json.get parsed "query" = Some query
              /\ missing_empty_or_not_string query)
    /\ (request_body = None \/ request_body = Some JNull ->
        r = mkNext 500 (JObj [("error", JStr "Failed to process request")]))
    /\ (forall parsed q,
          request_body = Some parsed -> valid_query parsed q ->
          http_status r = 200 \/ http_status r = 500).
Proof.
  destruct request_body as [parsed|].
  2:{ eexists. split; [reflexivity|]. split; [|split].
      - cbn. split; [discriminate|]. intros (p & q & E & _). discriminate E.
      - reflexivity.
      - intros p q E. discriminate E. }
  destruct (Json.get parsed "query") as [query|] eqn:Hq.
  2:{ destruct parsed; try discriminate Hq. eexists.
      split; [reflexivity|]. split; [|split].
      - cbn. split; [discriminate|].
        intros (p & q & E & Hget & _). injection E as <-. discriminate Hget.
      - reflexivity.
      - intros p q E [Hget _]. injection E as <-. discriminate Hget. }
  assert (Hnot_null : Some parsed <> Some JNull)
    by (intros E; injection E as ->; discriminate Hq).
  assert (Hothers : exists owner repo,
            Json.get parsed "owner" = Some owner
            /\ Json.get parsed "repo" = Some repo).
  { destruct parsed; try discriminate Hq; cbn; eauto. }
  destruct Hothers as (owner & repo & Ho & Hr).
  destruct (negb (Json.truthy query) || negb (Route.is_string query)) eqn:C.
  - assert (E : Route.POST env (Some parsed) st
                = (Ok Route.invalid_query, st)).
    { unfold Route.POST, try_catch, bind, ret. rewrite Hq, Ho, Hr, C.
      reflexivity. }
    rewrite E. eexists. split; [reflexivity|]. split; [|split].
    + cbn. split; [|reflexivity]. intros _.
      exists parsed, query. repeat split; [exact Hq|].
      now apply invalid_query_condition_inv.
    + intros [E'|E']; [discriminate E' | now elim Hnot_null].
    + intros p q E' [Hget Hne]. injection E' as <-.
      rewrite Hq in Hget. injection Hget as ->. cbn in C.
      apply String.eqb_neq in Hne. rewrite Hne in C. discriminate C.
  - destruct (valid_query_condition query C) as (q & -> & Hne).
    rewrite (POST_valid env parsed q owner repo st (conj Hq Hne) Ho Hr).
    destruct (always_agent_flow env q owner repo st)
      as (r & -> & Hwf & Hnot).
    exists r. split; [reflexivity|]. split; [|split].
    + split; [intros H; now elim Hnot|].
      intros (p & query & E & Hget & Hbad). injection E as <-.
      rewrite Hq in Hget. injection Hget as <-.
      apply invalid_query_condition in Hbad. cbn in C, Hbad. congruence.
    + intros [E'|E']; [discriminate E' | now elim Hnot_null].
    + intros _ _ _ _. destruct Hwf as [[text ->] | (msg & [H|H] & _)];
        [now left | now elim Hnot | now right].
Qed.

(** *** The fallback pipeline only fetches *)

Lemma only_fetches_refl (st : State) : only_fetches st st.
Proof. split; [reflexivity|]. exists []. cbn. now rewrite app_nil_r. Qed.

Lemma only_fetches_trans (a b c : State) :
  only_fetches a b -> only_fetches b c -> only_fetches a c.
Proof.
  intros [Hp1 [u1 H1]] [Hp2 [u2 H2]]. split; [congruence|].
  exists (u1 ++ u2)%list. rewrite H2, H1, map_app. now rewrite app_assoc.
Qed.

Lemma establishes_fetch (env : Env) (url : string) :
  establishes only_fetches anything (fetch env url).
Proof.
  intros st. unfold fetch.
  destruct (fetch_reply env (trace st) url); cbn;
    (split; [split; [reflexivity | exists [url]; reflexivity] | exact I]).
Qed.

Lemma establishes_response_json (r : HttpResponse) :
  establishes only_fetches anything (response_json r).
Proof.
  unfold response_json. destruct (body r).
  - apply (establishes_ret _ only_fetches_refl). exact I.
  - apply (establishes_throw _ only_fetches_refl).
Qed.

Ltac only_fetches_tac :=
  repeat match goal with
         | |- establishes _ _ (bind _ _) =>
             apply (establishes_bind _ only_fetches_trans anything);
             [|intros ? _]
         | |- establishes _ _ (try_catch _ _) =>
             apply (establishes_try_catch _ only_fetches_trans); [|intros ?]
         | |- establishes _ _ (ret _) =>
             apply (establishes_ret _ only_fetches_refl); exact I
         | |- establishes _ _ (throw _) =>
             apply (establishes_throw _ only_fetches_refl)
         | |- establishes _ _ (fetch _ _) => apply establishes_fetch
         | |- establishes _ _ (response_json _) =>
             apply establishes_response_json
         | |- establishes _ _ (if ?b then _ else _) => destruct b
         | |- establishes _ _ (match ?x with _ => _ end) => destruct x
         | |- establishes _ _ _ => progress cbv zeta
         end.

Lemma fallbackProcessing_only_fetches (env : Env) (query : string)
    (owner repo : Json.value) :
  establishes only_fetches anything
    (Route.fallbackProcessing env query owner repo).
Proof.
  unfold Route.fallbackProcessing, Route.executeGitHubTools,
    Route.generateLLMResponse, Route.fetchRepositoryMetadata,
    Route.fetchRepositoryReadme, Route.searchRepositoryContents,
    Route.fetchRepositoryStructure.
  only_fetches_tac.
Qed.

(** X10.  When the components are cached and the liveness probe of the
    completion service fails, on the network or by its status, the handler
    answers what the fallback pipeline answers and the agent is not called:
    after the probe nothing but requests is added to the trace.  The
    repository of the body is written into the shared context all the
    same. *)
Theorem probe_failure_falls_back (env : Env) (c : MastraComponents)
    (tr : list Event) (parsed : json) (q : string) (owner repo : Json.value) :
  valid_query parsed q ->
  Json.get parsed "owner" = Some owner ->
  Json.get parsed "repo" = Some repo ->
  match fetch_reply env tr ollama_version with
  | NetworkError => True
  | Response r => ok r = false
  end ->
  let ctx :=
    match owner, repo with
    | Some o, Some n =>
        if Json.truthy owner && Json.truthy repo then mkContext o n
        else runtimeContext c
    | _, _ => runtimeContext c
    end in
  let probed :=
    mkState (Some (Fulfilled (mkComponents (githubAgent c) ctx)))
      (tr ++ [EFetch ollama_version]) in
  Route.POST env (Some parsed) (mkState (Some (Fulfilled c)) tr)
  = Route.fallbackProcessing env q owner repo probed
  /\ only_fetches probed
       (snd (Route.POST env (Some parsed) (mkState (Some (Fulfilled c)) tr))).
Proof.
  intros Hvalid Ho Hr Hprobe ctx probed.
  assert (Heq : Route.POST env (Some parsed) (mkState (Some (Fulfilled c)) tr)
                = Route.fallbackProcessing env q owner repo probed).
  { rewrite (POST_valid env parsed q owner repo _ Hvalid Ho Hr).
    destruct (always_fallbackProcessing env q owner repo probed)
      as (resp & Hresp & _).
    destruct (Route.fallbackProcessing env q owner repo probed)
      as [res st2] eqn:Hfb. cbn [fst] in Hresp. subst res.
    set (cache := Some (Fulfilled (mkComponents (githubAgent c) ctx))).
    assert (Hset :
      (match owner, repo with
       | Some o, Some n =>
           if Json.truthy owner && Json.truthy repo
           then Route.set_repository o n
           else ret tt
       | _, _ => ret tt
       end) (mkState (Some (Fulfilled c)) tr) = (Ok tt, mkState cache tr)).
    { subst cache ctx. destruct c as [a rc].
      destruct owner as [o|], repo as [n|]; try reflexivity.
      destruct (Json.truthy (Some o) && Json.truthy (Some n)); reflexivity. }
    unfold agent_flow. apply try_catch_ok.
    erewrite bind_ok by reflexivity.
    rewrite (bind_ok _ _ _ _ tt Hset). fold ollama_version.
    destruct (fetch_reply env tr ollama_version) as [|r] eqn:Hreply.
    - erewrite try_catch_thrown; [exact Hfb|].
      apply bind_thrown. unfold fetch. cbn [trace mastraPromise].
      rewrite Hreply. reflexivity.
    - apply try_catch_ok.
      erewrite bind_ok
        by (unfold fetch; cbn [trace mastraPromise]; rewrite Hreply;
            reflexivity).
      rewrite Hprobe. exact Hfb. }
  split; [exact Heq|]. rewrite Heq.
  apply fallbackProcessing_only_fetches.
Qed.

Lemma probe_failure_falls_back_witness :
  exists probed,
    only_fetches probed
      (snd (Route.POST env_offline (Some (body_of "q" (Some "a") (Some "b")))
              (mkState (Some (Fulfilled (mkComponents 0%nat default_context)))
                 []))).
Proof.
  assert (Hvalid : valid_query (body_of "q" (Some "a") (Some "b")) "q")
    by (split; [reflexivity | discriminate]).
  pose proof (probe_failure_falls_back env_offline
                (mkComponents 0%nat default_context) []
                (body_of "q" (Some "a") (Some "b")) "q"
                (Some (JStr "a")) (Some (JStr "b"))
                Hvalid eq_refl eq_refl I) as H.
  cbv zeta in H. destruct H as [_ H]. eexists. exact H.
Defined.

(** X11.  When nothing is cached and the construction of the components
    fails, the handler answers what the fallback pipeline answers, without
    the liveness probe and without the agent, and the cache is [null]
    afterwards, so that the next request constructs again. *)
Theorem initialization_failure_falls_back (env : Env) (tr : list Event)
    (parsed : json) (q : string) (owner repo : Json.value) :
  valid_query parsed q ->
  Json.get parsed "owner" = Some owner ->
  Json.get parsed "repo" = Some repo ->
  initialize_reply env (tr ++ [EInitializeMastra]) = None ->
  Route.POST env (Some parsed) (mkState None tr)
  = Route.fallbackProcessing env q owner repo
      (mkState None (tr ++ [EInitializeMastra]))
  /\ mastraPromise (snd (Route.POST env (Some parsed) (mkState None tr)))
     = None.
Proof.
  intros Hvalid Ho Hr Hinit.
  assert (Heq : Route.POST env (Some parsed) (mkState None tr)
                = Route.fallbackProcessing env q owner repo
                    (mkState None (tr ++ [EInitializeMastra]))).
  { rewrite (POST_valid env parsed q owner repo _ Hvalid Ho Hr).
    unfold agent_flow. erewrite try_catch_thrown; [reflexivity|].
    apply bind_thrown. apply getMastraComponents_failure. exact Hinit. }
  split; [exact Heq|]. rewrite Heq.
  destruct (fallbackProcessing_only_fetches env q owner repo
              (mkState None (tr ++ [EInitializeMastra]))) as [[Hp _] _].
  exact Hp.
Qed.

Lemma initialization_failure_falls_back_witness :
  mastraPromise
    (snd (Route.POST env_offline (Some (body_of "q" None None))
            (mkState None []))) = None.
Proof.
  assert (Hvalid : valid_query (body_of "q" None None) "q")
    by (split; [reflexivity | discriminate]).
  pose proof (initialization_failure_falls_back env_offline []
                (body_of "q" None None) "q" None None
                Hvalid eq_refl eq_refl eq_refl) as H.
  destruct H as [_ H]. exact H.
Defined.

(** ** The page and the handler *)

(** X12.  [handleSubmit] does nothing for a form whose trimmed query is
    empty, and only then; for a query that is not blank and asks for the
    weather agent it gives the canned answer and sends nothing; otherwise
    it sends the trimmed query with the owner and the repository of the
    page, and such a request passes the validation of the handler: it is
    answered 200 or 500, never 400. *)
Theorem page_request_not_rejected (env : Env) (st : State)
    (query repoOwner repoName : string) :
  match Page.handleSubmit query repoOwner repoName with
  | Page.Request body =>
      JS.trim query <> ""
      /\ Page.asks_weather_agent query = false
      /\ body = JObj [("query", JStr (JS.trim query));
                      ("owner", JStr repoOwner);
                      ("repo", JStr repoName)]
      /\ exists r,
           fst (Route.POST env (Some body) st) = Ok r /\ not_rejected r
  | Page.WeatherAnswer =>
      JS.trim query <> "" /\ Page.asks_weather_agent query = true
  | Page.Ignored => JS.trim query = ""
  end.
Proof.
  unfold Page.handleSubmit.
  destruct (String.eqb_spec (JS.trim query) "") as [E|E]; [exact E|].
  destruct (Page.asks_weather_agent query); [now split|].
  assert (Hvalid : valid_query
                     (JObj [("query", JStr (JS.trim query));
                            ("owner", JStr repoOwner);
                            ("repo", JStr repoName)]) (JS.trim query))
    by (split; [reflexivity | exact E]).
  split; [exact E|]. split; [reflexivity|]. split; [reflexivity|].
  rewrite (POST_valid env _ (JS.trim query) (Some (JStr repoOwner))
             (Some (JStr repoName)) st Hvalid eq_refl eq_refl).
  apply always_agent_flow.
Qed.

(** ** The recent repositories of the page *)

Lemma filter_none {A} (f : A -> bool) (l : list A) :
  existsb f l = false -> filter f l = [].
Proof.
  induction l as [|x l IH]; cbn; [reflexivity|].
  destruct (f x); cbn; [discriminate | exact IH].
Qed.

Lemma existsb_firstn {A} (f : A -> bool) (n : nat) (l : list A) :
  existsb f l = false -> existsb f (firstn n l) = false.
Proof.
  revert l; induction n as [|n IH]; intros [|x l]; cbn; try reflexivity.
  destruct (f x); cbn; [discriminate | apply IH].
Qed.

Lemma filter_out_shorter {A} (f : A -> bool) (l : list A) :
  existsb f l = true ->
  (List.length (filter (fun x => negb (f x)) l) < List.length l)%nat.
Proof.
  induction l as [|x l IH]; cbn; [discriminate|].
  destruct (f x) eqn:E; cbn.
  - intros _. pose proof (filter_length_le (fun x => negb (f x)) l). lia.
  - intros H. specialize (IH H). lia.
Qed.

Lemma filter_filter_out {A} (f : A -> bool) (l : list A) :
  filter f (filter (fun x => negb (f x)) l) = [].
Proof.
  induction l as [|x l IH]; cbn; [reflexivity|].
  destruct (f x) eqn:E; cbn; [exact IH | now rewrite E].
Qed.

(** X13.  After [updateRecentRepos(owner, repo)] the repository is the first
    of the list and occurs in it once; the other entries come from the old
    list; and a list of at most 5 entries stays within 5. *)
Theorem recent_repos_updated (recentRepos : list Page.Repo)
    (owner repo : string) :
  let updated := Page.updateRecentRepos recentRepos owner repo in
  hd_error updated = Some (Page.mkRepo owner repo)
  /\ filter (Page.same owner repo) updated = [Page.mkRepo owner repo]
  /\ (forall r, In r updated -> r = Page.mkRepo owner repo \/ In r recentRepos)
  /\ ((List.length recentRepos <= 5)%nat -> (List.length updated <= 5)%nat).
Proof.
  assert (Hsame : Page.same owner repo (Page.mkRepo owner repo) = true).
  { unfold Page.same. cbn. now rewrite !String.eqb_refl. }
  unfold Page.updateRecentRepos.
  destruct (existsb (Page.same owner repo) recentRepos) eqn:E; cbn zeta;
    cbn [negb].
  - split; [reflexivity|]. split.
    + cbn [filter]. rewrite Hsame, filter_filter_out. reflexivity.
    + split.
      * intros r [<-|Hin]; [now left|]. right.
        apply filter_In in Hin. tauto.
      * intros Hlen. pose proof (filter_out_shorter _ _ E). cbn [List.length].
        lia.
  - change (firstn 5 (Page.mkRepo owner repo :: recentRepos))
      with (Page.mkRepo owner repo :: firstn 4 recentRepos).
    split; [reflexivity|]. split.
    + cbn [filter]. rewrite Hsame.
      rewrite filter_none; [reflexivity|]. now apply existsb_firstn.
    + split.
      * intros r [<-|Hin]; [now left|]. right.
        revert Hin. generalize 4%nat. intros n.
        revert recentRepos E; induction n as [|n IH]; intros [|x l] E;
          cbn; try tauto.
        intros [<-|Hin]; [now left|]. right.
        apply (IH l); [|exact Hin]. cbn in E.
        now apply orb_false_iff in E as [_ E].
      * intros _. cbn [List.length].
        pose proof (firstn_le_length 4 recentRepos). lia.
Qed.

(** ** The model check and the agent tools *)

(** X14.  [getOllamaModel] never raises and asks for the tag list once.  It
    answers the requested model or the fallback model; the fallback model
    only when the tag list was answered within 200..299 with an array of
    models of which none bears the requested name. *)
Theorem getOllamaModel_answer (env : Env) (modelName : string) (st : State) :
  exists answer,
    AgentFile.getOllamaModel env modelName st
    = (Ok answer, after st [EFetch AgentFile.ollama_tags])
    /\ (answer = modelName
        \/ (answer = AgentFile.FALLBACK_MODEL
            /\ exists r data items,
                 fetch_reply env (trace st) AgentFile.ollama_tags = Response r
                 /\ ok r = true /\ body r = Some data
                 /\ (Json.get data "models" = Some (Some (JArr items))
                     \/ (items = []
                         /\ exists v, Json.get data "models" = Some v
                                      /\ Json.truthy v = false))
                 /\ AgentFile.some_named modelName items = Some false)).
Proof.
  assert (Hsame : forall s' : State,
            exists answer,
              (Ok modelName, s') = (@Ok string answer, s')
              /\ (answer = modelName
                  \/ (answer = AgentFile.FALLBACK_MODEL
                      /\ exists r data items,
                           fetch_reply env (trace st) AgentFile.ollama_tags
                           = Response r
                           /\ ok r = true /\ body r = Some data
                           /\ (Json.get data "models"
                               = Some (Some (JArr items))
                               \/ (items = []
                                   /\ exists v,
                                        Json.get data "models" = Some v
                                        /\ Json.truthy v = false))
                           /\ AgentFile.some_named modelName items
                              = Some false))).
  { intros s'. exists modelName. split; [reflexivity | now left]. }
  unfold AgentFile.getOllamaModel, try_catch, bind, fetch, response_json,
    after.
  destruct (fetch_reply env (trace st) AgentFile.ollama_tags) as [|r] eqn:Hr;
    cbn; [apply Hsame|].
  destruct (ok r) eqn:Hok; cbn; [|apply Hsame].
  destruct (body r) as [data|] eqn:Hbody; cbn; [|apply Hsame].
  unfold AgentFile.model_listed.
  destruct (Json.get data "models") as [v|] eqn:Hget; cbn; [|apply Hsame].
  destruct (Json.truthy v) eqn:Htruthy.
  - destruct v as [[| | | |items|]|]; cbn; try apply Hsame.
    destruct (AgentFile.some_named modelName items) as [[]|] eqn:Hsome;
      cbn; try apply Hsame.
    eexists. split; [reflexivity|]. right. split; [reflexivity|].
    exists r, data, items. auto 6.
  - cbn. eexists. split; [reflexivity|]. right. split; [reflexivity|].
    exists r, data, []. repeat split; eauto.
Qed.

Lemma decoded_file_answer (data : json) (extra : list string)
    (missing : string) (st : State) :
  match fst (AgentTools.decoded_file data extra missing st) with
  | Ok v =>
      exists fields,
        v = JObj fields
        /\ ((exists text, Json.lookup "content" fields = Some (JStr text))
            \/ fields = [("error", JStr missing)])
  | Thrown _ => True
  end.
Proof.
  unfold AgentTools.decoded_file.
  destruct (Json.get data "content") as [c|]; cbn; [|exact I].
  destruct (Json.truthy c); cbn; [|eauto].
  destruct c as [[| | |s| |]|]; cbn; try exact I.
  destruct (Base64.atob _) as [text|]; cbn; [|exact I].
  eexists. split; [reflexivity|]. left. exists text. reflexivity.
Qed.

(** X15.  No agent tool raises.  The README tool and the file tool answer an
    object that holds either the decoded content or an error text alone;
    the search tool answers an object that holds a list under [items]. *)
Theorem agent_tools_never_raise (env : Env)
    (context : AgentTools.ToolContext) (rc : RuntimeContext)
    (query path : string) (st : State) :
  (exists v,
     fst (AgentTools.fetchRepositoryMetadata env context rc st) = Ok v)
  /\ (exists fields,
        fst (AgentTools.fetchRepositoryReadme env context rc st)
        = Ok (JObj fields)
        /\ ((exists text, Json.lookup "content" fields = Some (JStr text))
            \/ exists msg, fields = [("error", JStr msg)]))
  /\ (exists fields,
        fst (AgentTools.fetchFileContent env context path rc st)
        = Ok (JObj fields)
        /\ ((exists text, Json.lookup "content" fields = Some (JStr text))
            \/ exists msg, fields = [("error", JStr msg)]))
  /\ (exists fields items,
        fst (AgentTools.searchRepositoryContents env context query rc st)
        = Ok (JObj fields)
        /\ Json.lookup "items" fields = Some items).
Proof.
  split; [apply agent_fetchRepositoryMetadata_returns|].
  split; [|split].
  - unfold AgentTools.fetchRepositoryReadme, try_catch, bind, fetch,
      response_json.
    destruct (fetch_reply env (trace st) _) as [|r]; cbn; [eauto 6|].
    destruct (ok r); cbn; [|eauto 6].
    destruct (body r) as [data|]; cbn; [|eauto 6].
    match goal with
    | |- context [AgentTools.decoded_file data ?x ?m ?s] =>
        pose proof (decoded_file_answer data x m s) as H;
        destruct (AgentTools.decoded_file data x m s) as [[v|e] s1]
    end; cbn in *; [|eauto 6].
    destruct H as (fields & -> & [Hc | ->]); eauto 6.
  - unfold AgentTools.fetchFileContent, try_catch, bind, fetch,
      response_json.
    destruct (fetch_reply env (trace st) _) as [|r]; cbn; [eauto 6|].
    destruct (ok r); cbn; [|eauto 6].
    destruct (body r) as [data|]; cbn; [|eauto 6].
    match goal with
    | |- context [AgentTools.decoded_file data ?x ?m ?s] =>
        pose proof (decoded_file_answer data x m s) as H;
        destruct (AgentTools.decoded_file data x m s) as [[v|e] s1]
    end; cbn in *; [|eauto 6].
    destruct H as (fields & -> & [Hc | ->]); eauto 6.
  - unfold AgentTools.searchRepositoryContents. run_fetcher;
      try (destruct (Json.get _ "items") as [c|]; simpl);
      eexists _, _; split; reflexivity.
Qed.

(** ** The status of the completion service shown by the page *)

(** X16.  [checkOllama] never raises.  It reports the service connected
    only when the version probe was answered within 200..299; whenever it
    reports it not connected, the model shown is the simulation; and when
    the probe succeeds but the tag list is answered outside 200..299, it
    reports the service connected with an unknown model. *)
Theorem checkOllama_status (env : Env) (st : State) :
  exists status,
    fst (Page.checkOllama env st) = Ok status
    /\ (Page.connected status = false ->
        Page.model status = "Fallback (Simulation)")
    /\ (Page.connected status = true ->
        exists r,
          fetch_reply env (trace st) ollama_version = Response r
          /\ ok r = true)
    /\ (forall r r2,
          fetch_reply env (trace st) ollama_version = Response r ->
          ok r = true ->
          fetch_reply env (trace st ++ [EFetch ollama_version])
            AgentFile.ollama_tags = Response r2 ->
          ok r2 = false ->
          status = Page.mkStatus true "Unknown").
Proof.
  unfold Page.checkOllama, try_catch, bind, fetch, response_json.
  fold ollama_version. cbn [trace mastraPromise].
  destruct (fetch_reply env (trace st) ollama_version) as [|r] eqn:Hr;
    cbn [negb].
  { eexists. split; [reflexivity|]. repeat split; try discriminate. }
  destruct (ok r) eqn:Hok; cbn [negb].
  2:{ eexists. split; [reflexivity|]. split; [reflexivity|].
      split; [discriminate|]. intros r' r2 E. injection E as <-. congruence. }
  cbn [trace mastraPromise].
  destruct (fetch_reply env (trace st ++ [EFetch ollama_version])
              AgentFile.ollama_tags) as [|r2] eqn:Hr2.
  { eexists. split; [reflexivity|]. split; [reflexivity|].
    split; discriminate. }
  destruct (ok r2) eqn:Hok2; cbn [negb].
  2:{ eexists. split; [reflexivity|]. split; [discriminate|].
      split; [eauto|]. reflexivity. }
  assert (Hdone : forall (res : Result Page.OllamaStatus) (s1 : State),
    (forall text, res <> Ok (Page.mkStatus false text)) ->
    exists status,
      fst (match res with
           | Ok a => (Ok a, s1)
           | Thrown _ => ret (Page.mkStatus false "Fallback (Simulation)") s1
           end) = Ok status
      /\ (Page.connected status = false ->
          Page.model status = "Fallback (Simulation)")
      /\ (Page.connected status = true ->
          exists r0, Response r = Response r0 /\ ok r0 = true)
      /\ (forall r0 r3,
            Response r = Response r0 -> ok r0 = true ->
            Response r2 = Response r3 -> ok r3 = false ->
            status = Page.mkStatus true "Unknown")).
  { intros [[conn text]|e] s1 Hres; cbn.
    - eexists. split; [reflexivity|]. cbn. split.
      + intros ->. now elim (Hres text).
      + split; [eauto|]. intros r0 r3 _ _ E. injection E as <-. congruence.
    - eexists. split; [reflexivity|]. cbn. split; [reflexivity|].
      split; [discriminate|]. intros r0 r3 _ _ E. injection E as <-.
      congruence. }
  destruct (body r2) as [data|]; cbn [ret throw];
    [|apply (Hdone (Thrown "")); discriminate].
  unfold Page.listed_models.
  destruct (Json.get data "models") as [v|];
    [|apply (Hdone (Thrown "")); discriminate].
  destruct (if Json.truthy v then v else Some (JArr [])) as [[| | | |items|]|];
    try (apply (Hdone (Thrown "")); discriminate).
  cbn [ret]. unfold Page.some_model.
  destruct (AgentFile.some_named "llama3.1-resume:custom" items) as [custom|];
    [|apply (Hdone (Thrown "")); discriminate].
  cbn [ret].
  destruct (AgentFile.some_named "llama3" items) as [llama|];
    [|apply (Hdone (Thrown "")); discriminate].
  cbn [ret].
  destruct custom; [apply (Hdone (Ok _)); discriminate|].
  destruct llama; [apply (Hdone (Ok _)); discriminate|].
  destruct (Page.model_names items) as [names|];
    [apply (Hdone (Ok _)); discriminate
    |apply (Hdone (Thrown "")); discriminate].
Qed.

(** ** The extracted section holds one header *)






Lemma drop_beyond (n : nat) (s : string) :
  (String.length s <= n)%nat -> JS.drop n s = "".
Proof.
  revert s; induction n as [|n IH]; intros [|c s] H; cbn in *;
    try reflexivity; try lia.
  apply IH. lia.
Qed.








